(** * Vibercizing: the jumping-jack rep detector, the exercise session and
      the balance ledger.

    A shallow embedding of [client/src/lib/exercises.ts] (the debounced
    revision, the one that exports [THRESHOLDS]) and of the frame callback of
    the [WebcamFeed] component, followed by the properties the specification
    states about them.

    Modelling conventions.
    - A JavaScript [number] holding a landmark coordinate or a visibility is
      an IEEE 754 binary64 value: Rocq's primitive [float], with the very
      same comparison and arithmetic ([<] is [PrimFloat.ltb], so a comparison
      with NaN is false, as in JavaScript).
    - [Date.now()] is an input of [processFrame]: the integer number of
      milliseconds the clock shows when the frame is processed.
    - The rep counter is a natural number (the counter stays far below
      2^53, where JavaScript's [++] is exact).
    - A [Landmark[]] is a [list Landmark]; [pose[i]] is [nth_error pose i],
      and [None] stands for [undefined].
    - The ledger lives in the Python server, which is not among the sources
      at hand: module [Ledger] is written from the specification. *)

From Stdlib Require Import Floats.PrimFloat Floats.SpecFloat Floats.FloatOps.
From Stdlib Require Floats.FloatAxioms.
From Stdlib Require Import ZArith List Bool Lia.
From Stdlib Require String.
Import ListNotations.

Set Warnings "-inexact-float".

(** ** exercises.ts *)

Module Exercises.

Record Landmark : Set := mkLandmark {
  x : float;
  y : float;
  z : float;
  visibility : float
}.

Inductive JumpingJackState : Set := up | down | transition | unknown.

Definition JumpingJackState_eqb (a b : JumpingJackState) : bool :=
  match a, b with
  | up, up | down, down | transition, transition | unknown, unknown => true
  | _, _ => false
  end.

(** MediaPipe landmark indices. *)
Module LANDMARKS.
Definition LEFT_SHOULDER : nat := 11.
Definition RIGHT_SHOULDER : nat := 12.
Definition LEFT_WRIST : nat := 15.
Definition RIGHT_WRIST : nat := 16.
Definition LEFT_HIP : nat := 23.
Definition RIGHT_HIP : nat := 24.
Definition LEFT_ANKLE : nat := 27.
Definition RIGHT_ANKLE : nat := 28.
End LANDMARKS.

(** Thresholds for detection. *)
Module THRESHOLDS.
Definition ARMS_UP_MARGIN : float := 0.2%float.
Definition FEET_SPREAD_RATIO : float := 2.0%float.
Definition MIN_VISIBILITY : float := 0.3%float.
Definition STATE_CHANGE_DEBOUNCE_MS : Z := 500%Z.
End THRESHOLDS.

Definition getLandmark (pose : list Landmark) (index : nat) : option Landmark :=
  match nth_error pose index with
  | None => None
  | Some landmark =>
      if PrimFloat.ltb (visibility landmark) THRESHOLDS.MIN_VISIBILITY
      then None
      else Some landmark
  end.

(** [boolean | null] is [option bool]. *)
Definition areArmsUp (pose : list Landmark) : option bool :=
  match getLandmark pose LANDMARKS.LEFT_SHOULDER,
        getLandmark pose LANDMARKS.RIGHT_SHOULDER,
        getLandmark pose LANDMARKS.LEFT_WRIST,
        getLandmark pose LANDMARKS.RIGHT_WRIST with
  | Some leftShoulder, Some rightShoulder, Some leftWrist, Some rightWrist =>
      let leftArmUp :=
        PrimFloat.ltb (y leftWrist)
          (PrimFloat.sub (y leftShoulder) THRESHOLDS.ARMS_UP_MARGIN) in
      let rightArmUp :=
        PrimFloat.ltb (y rightWrist)
          (PrimFloat.sub (y rightShoulder) THRESHOLDS.ARMS_UP_MARGIN) in
      Some (leftArmUp && rightArmUp)
  | _, _, _, _ => None
  end.

Definition areFeetApart (pose : list Landmark) : option bool :=
  match getLandmark pose LANDMARKS.LEFT_HIP,
        getLandmark pose LANDMARKS.RIGHT_HIP,
        getLandmark pose LANDMARKS.LEFT_ANKLE,
        getLandmark pose LANDMARKS.RIGHT_ANKLE with
  | Some leftHip, Some rightHip, Some leftAnkle, Some rightAnkle =>
      let hipWidth := PrimFloat.abs (PrimFloat.sub (x rightHip) (x leftHip)) in
      let ankleSpread :=
        PrimFloat.abs (PrimFloat.sub (x rightAnkle) (x leftAnkle)) in
      (* ankleSpread > hipWidth * FEET_SPREAD_RATIO *)
      Some (PrimFloat.ltb
              (PrimFloat.mul hipWidth THRESHOLDS.FEET_SPREAD_RATIO)
              ankleSpread)
  | _, _, _, _ => None
  end.

Definition detectJumpingJackPosition (pose : list Landmark) : JumpingJackState :=
  if Nat.ltb (List.length pose) 33 then unknown
  else
    let armsUp := areArmsUp pose in
    let feetApart := areFeetApart pose in
    match armsUp with
    | None => unknown
    | Some armsUp =>
        match feetApart with
        | None => if armsUp then up else down
        | Some feetApart =>
            if armsUp && feetApart then up
            else if negb armsUp && negb feetApart then down
            else transition
        end
    end.

(** The closure variables of [createJumpingJackDetector]. *)
Record Detector : Set := mkDetector {
  reps : nat;
  currentState : JumpingJackState;
  hasReachedUp : bool;
  lastStateChangeTime : Z
}.

Definition createJumpingJackDetector : Detector :=
  {| reps := 0; currentState := unknown; hasReachedUp := false;
     lastStateChangeTime := 0 |}.

(** [now] is the value [Date.now()] returns during the call. *)
Definition processFrame (now : Z) (pose : list Landmark) (d : Detector) : Detector :=
  let newState := detectJumpingJackPosition pose in
  if JumpingJackState_eqb newState unknown then d
  else if JumpingJackState_eqb newState (currentState d) then d
  else if (now - lastStateChangeTime d <? THRESHOLDS.STATE_CHANGE_DEBOUNCE_MS)%Z
  then d
  else
    let hasReachedUp1 :=
      if JumpingJackState_eqb newState up then true else hasReachedUp d in
    if JumpingJackState_eqb newState down && hasReachedUp1
    then {| reps := S (reps d); currentState := newState;
            hasReachedUp := false; lastStateChangeTime := now |}
    else {| reps := reps d; currentState := newState;
            hasReachedUp := hasReachedUp1; lastStateChangeTime := now |}.

Definition getReps (d : Detector) : nat := reps d.

Definition getState (d : Detector) : JumpingJackState := currentState d.

Definition reset (d : Detector) : Detector :=
  {| reps := 0; currentState := unknown; hasReachedUp := false;
     lastStateChangeTime := 0 |}.

(** Feeding a detector a sequence of timed frames, oldest first. *)
Fixpoint processFrames (frames : list (Z * list Landmark)) (d : Detector) : Detector :=
  match frames with
  | [] => d
  | (now, pose) :: rest => processFrames rest (processFrame now pose d)
  end.

End Exercises.

(** ** exercises.test.ts: the poses the test-suite builds *)

Module TestPoses.
Import Exercises.

Definition SHOULDER_Y : float := 0.3%float.
Definition WRIST_Y_UP : float :=
  PrimFloat.sub (PrimFloat.sub SHOULDER_Y THRESHOLDS.ARMS_UP_MARGIN) 0.05%float.
Definition WRIST_Y_DOWN : float := 0.5%float.
Definition ANKLE_X_TOGETHER_LEFT : float := 0.48%float.
Definition ANKLE_X_TOGETHER_RIGHT : float := 0.52%float.
Definition ANKLE_X_APART_LEFT : float := 0.2%float.
Definition ANKLE_X_APART_RIGHT : float := 0.8%float.

Fixpoint setAt (pose : list Landmark) (index : nat) (l : Landmark) : list Landmark :=
  match pose, index with
  | [], _ => []
  | _ :: rest, O => l :: rest
  | l0 :: rest, S i => l0 :: setAt rest i l
  end.

Definition lm (vx vy : float) : Landmark :=
  {| x := vx; y := vy; z := 0%float; visibility := 1%float |}.

(** The optional fields of the argument of [createPose]. *)
Record Overrides : Set := mkOverrides {
  leftWristY : option float;
  rightWristY : option float;
  leftShoulderY : option float;
  rightShoulderY : option float;
  leftAnkleX : option float;
  rightAnkleX : option float;
  leftHipX : option float;
  rightHipX : option float
}.

(** [v ?? d] *)
Definition orElse (v : option float) (d : float) : float :=
  match v with Some f => f | None => d end.

Definition createPose (overrides : Overrides) : list Landmark :=
  let pose := repeat (lm 0.5%float 0.5%float) 33 in
  let pose := setAt pose 11 (lm 0.4%float (orElse (leftShoulderY overrides) SHOULDER_Y)) in
  let pose := setAt pose 12 (lm 0.6%float (orElse (rightShoulderY overrides) SHOULDER_Y)) in
  let pose := setAt pose 15 (lm 0.3%float (orElse (leftWristY overrides) WRIST_Y_DOWN)) in
  let pose := setAt pose 16 (lm 0.7%float (orElse (rightWristY overrides) WRIST_Y_DOWN)) in
  let pose := setAt pose 23 (lm (orElse (leftHipX overrides) 0.45%float) 0.6%float) in
  let pose := setAt pose 24 (lm (orElse (rightHipX overrides) 0.55%float) 0.6%float) in
  let pose := setAt pose 27 (lm (orElse (leftAnkleX overrides) 0.45%float) 0.9%float) in
  let pose := setAt pose 28 (lm (orElse (rightAnkleX overrides) 0.55%float) 0.9%float) in
  pose.

(** The overrides the tests write: both wrists and both ankles. *)
Definition wristsAndAnkles (lw rw la ra : float) : Overrides :=
  {| leftWristY := Some lw; rightWristY := Some rw;
     leftShoulderY := None; rightShoulderY := None;
     leftAnkleX := Some la; rightAnkleX := Some ra;
     leftHipX := None; rightHipX := None |}.

Definition downPose : list Landmark :=
  Eval vm_compute in
  createPose (wristsAndAnkles WRIST_Y_DOWN WRIST_Y_DOWN
                ANKLE_X_TOGETHER_LEFT ANKLE_X_TOGETHER_RIGHT).

Definition upPose : list Landmark :=
  Eval vm_compute in
  createPose (wristsAndAnkles WRIST_Y_UP WRIST_Y_UP
                ANKLE_X_APART_LEFT ANKLE_X_APART_RIGHT).

(** Arms up, feet together. *)
Definition armsOnlyPose : list Landmark :=
  Eval vm_compute in
  createPose (wristsAndAnkles WRIST_Y_UP WRIST_Y_UP
                ANKLE_X_TOGETHER_LEFT ANKLE_X_TOGETHER_RIGHT).

(** Feet apart, arms down. *)
Definition feetOnlyPose : list Landmark :=
  Eval vm_compute in
  createPose (wristsAndAnkles WRIST_Y_DOWN WRIST_Y_DOWN
                ANKLE_X_APART_LEFT ANKLE_X_APART_RIGHT).

(** Feet apart, the left arm up only; the right arm up only. *)
Definition poseLeftOnly : list Landmark :=
  Eval vm_compute in
  createPose (wristsAndAnkles WRIST_Y_UP WRIST_Y_DOWN
                ANKLE_X_APART_LEFT ANKLE_X_APART_RIGHT).

Definition poseRightOnly : list Landmark :=
  Eval vm_compute in
  createPose (wristsAndAnkles WRIST_Y_DOWN WRIST_Y_UP
                ANKLE_X_APART_LEFT ANKLE_X_APART_RIGHT).

(** The time the fake clock of the test-suite starts at; any time will do. *)
Definition T0 : Z := 1700000000000%Z.

(** [pose] with the landmark at [index] made invisible. *)
Definition hide (pose : list Landmark) (index : nat) : list Landmark :=
  match nth_error pose index with
  | None => pose
  | Some l =>
      setAt pose index
        {| x := x l; y := y l; z := z l; visibility := 0%float |}
  end.

(** [n] jumping jacks, one frame every 500 ms from [t] on: Up, Down, Up,
    Down, ... *)
Fixpoint jumpingJacks (n : nat) (t : Z) : list (Z * option (list Landmark)) :=
  match n with
  | O => []
  | S k =>
      (t, Some upPose) :: ((t + 500)%Z, Some downPose)
      :: jumpingJacks k (t + 1000)%Z
  end.

End TestPoses.

(** ** WebcamFeed: the per-frame callback that drives a detector towards
       a target *)

Module WebcamFeed.
Import String.
Import Exercises.

(** The arguments of [onExerciseComplete]. *)
Record CompletionEvent : Set := mkCompletionEvent {
  exerciseKind : String.string;
  repsCompleted : nat
}.

(** [detectorRef.current], and the store's [currentReps] that
    [incrementReps] and [resetReps] write. *)
Record Session : Set := mkSession {
  detectorRef : Detector;
  currentReps : nat
}.

Definition initial : Session :=
  {| detectorRef := createJumpingJackDetector; currentReps := 0 |}.

(** The body of [if (pose) { ... }] in the animation-frame callback; [pose]
    is what [detectPose] returned ([None] for [null]), and the event is the
    call of [onExerciseComplete], if one is made. *)
Definition processFrame (targetReps : nat) (now : Z)
    (pose : option (list Landmark)) (s : Session)
  : Session * option CompletionEvent :=
  match pose with
  | None => (s, None)
  | Some pose =>
      let prevReps := getReps (detectorRef s) in
      let detector := Exercises.processFrame now pose (detectorRef s) in
      let newReps := getReps detector in
      if Nat.ltb prevReps newReps then
        let incremented := S (currentReps s) in
        if Nat.leb targetReps newReps then
          ({| detectorRef := reset detector; currentReps := 0 |},
           Some {| exerciseKind := "jumping_jacks"%string;
                   repsCompleted := newReps |})
        else ({| detectorRef := detector; currentReps := incremented |}, None)
      else ({| detectorRef := detector; currentReps := currentReps s |}, None)
  end.

(** A whole stream of frames: the final session and, frame by frame, the
    event the frame produced, if any. *)
Fixpoint processFrames (targetReps : nat)
    (frames : list (Z * option (list Landmark))) (s : Session)
  : Session * list (option CompletionEvent) :=
  match frames with
  | [] => (s, [])
  | (now, pose) :: rest =>
      let (s1, ev) := processFrame targetReps now pose s in
      let (s2, evs) := processFrames targetReps rest s1 in
      (s2, ev :: evs)
  end.

(** The events of a trace, in order. *)
Fixpoint emitted (trace : list (option CompletionEvent)) : list CompletionEvent :=
  match trace with
  | [] => []
  | None :: rest => emitted rest
  | Some e :: rest => e :: emitted rest
  end.

End WebcamFeed.

(** ** The balance ledger *)

Module Ledger.

(** Modelled from the spec: the kind of a LedgerEvent ([earn], [spend] or
    [spend_rejected]); the server's ledger code is not among the sources. *)
Inductive EventKind : Set := kind_earn | kind_spend | kind_spend_rejected.

(** Modelled from the spec: a LedgerEvent, an append-only record of one
    mutation (kind, magnitude, timestamp). *)
Record LedgerEvent : Set := mkEvent {
  kind : EventKind;
  magnitude : Z;
  timestamp : Z
}.

(** Modelled from the spec: the Ledger record, two counters [earned] and
    [spent], with the event log it appends to. *)
Record Ledger : Set := mkLedger {
  earned : Z;
  spent : Z;
  history : list LedgerEvent
}.

(** Modelled from the spec: the ledger is created once with
    earned = spent = 0. *)
Definition initial : Ledger := {| earned := 0; spent := 0; history := [] |}.

(** Modelled from the spec: available balance = earned - spent. *)
Definition available (l : Ledger) : Z := (earned l - spent l)%Z.

(** Modelled from the spec: the error taxonomy of the two ledger
    operations; [InsufficientBalance] carries the current available
    balance. *)
Inductive LedgerError : Set :=
  | InvalidAmount
  | InsufficientBalance (current : Z).

(** Modelled from the spec: [credit(amount)] rejects a zero or negative
    amount with [InvalidAmount] before any mutation; otherwise it increases
    [earned] by [amount], appends an [earn] event and returns the resulting
    available balance. *)
Definition credit (now amount : Z) (l : Ledger) : Ledger * (LedgerError + Z) :=
  if (amount <=? 0)%Z then (l, inl InvalidAmount)
  else
    let l1 := {| earned := earned l + amount; spent := spent l;
                 history := history l ++ [mkEvent kind_earn amount now] |} in
    (l1, inr (available l1)).

(** Modelled from the spec: [spend(amount)] rejects a zero or negative
    amount with [InvalidAmount]; it succeeds only if the available balance is
    at least [amount], then increasing [spent] by [amount] and appending a
    [spend] event; on failure it appends a [spend_rejected] event and returns
    the current available balance, the counters untouched. *)
Definition spend (now amount : Z) (l : Ledger) : Ledger * (LedgerError + Z) :=
  if (amount <=? 0)%Z then (l, inl InvalidAmount)
  else if (amount <=? available l)%Z then
    let l1 := {| earned := earned l; spent := spent l + amount;
                 history := history l ++ [mkEvent kind_spend amount now] |} in
    (l1, inr (available l1))
  else
    ({| earned := earned l; spent := spent l;
        history := history l ++ [mkEvent kind_spend_rejected amount now] |},
     inl (InsufficientBalance (available l))).

(** Modelled from the spec: [snapshot()] is read-only and returns
    (available, earned, spent). *)
Definition snapshot (l : Ledger) : Z * Z * Z := (available l, earned l, spent l).

(** Modelled from the spec: one call of a ledger operation, with the time
    it is logged at. *)
Inductive Op : Set :=
  | Credit (now amount : Z)
  | Spend (now amount : Z).

(** Modelled from the spec: the ledger after one operation, whatever its
    result. *)
Definition step (l : Ledger) (op : Op) : Ledger :=
  match op with
  | Credit now amount => fst (credit now amount l)
  | Spend now amount => fst (spend now amount l)
  end.

(** Modelled from the spec: the ledger after a sequence of operations,
    applied in order. *)
Definition run (ops : list Op) (l : Ledger) : Ledger := fold_left step ops l.

(** Modelled from the spec: [spend(1)] called once per element of [nows],
    one call after the other, with the result of each call. *)
Fixpoint spendOnes (nows : list Z) (l : Ledger) : Ledger * list (LedgerError + Z) :=
  match nows with
  | [] => (l, [])
  | now :: rest =>
      let (l1, r) := spend now 1 l in
      let (l2, rs) := spendOnes rest l1 in
      (l2, r :: rs)
  end.

(** Modelled from the spec: a result is a success when it carries a new
    balance. *)
Definition isSuccess (r : LedgerError + Z) : bool :=
  match r with inr _ => true | inl _ => false end.

(** Modelled from the spec: a result is an [InsufficientBalance] failure. *)
Definition isInsufficientBalance (r : LedgerError + Z) : bool :=
  match r with inl (InsufficientBalance _) => true | _ => false end.

End Ledger.

(** ** The words of the specification, over the embedding *)

Module SpecTerms.
Import String.
Import Exercises.

(** A frame is _accepted_ when [processFrame] reaches its last two
    assignments, that is when it does not return early: the detector is not
    what it was. *)
Definition accepted (now : Z) (pose : list Landmark) (d : Detector) : Prop :=
  processFrame now pose d <> d.

(** [pose[index]] of a pose that is long enough. *)
Definition landmarkAt (pose : list Landmark) (index : nat) : Landmark :=
  nth index pose (mkLandmark 0%float 0%float 0%float 0%float).

(** A landmark _meets the visibility threshold_ when it is not below it:
    the specification calls a landmark below the minimum visibility
    unavailable. *)
Definition meetsVisibility (l : Landmark) : bool :=
  negb (PrimFloat.ltb (visibility l) THRESHOLDS.MIN_VISIBILITY).

(** Shoulders and wrists. *)
Definition armLandmarks : list nat :=
  [LANDMARKS.LEFT_SHOULDER; LANDMARKS.RIGHT_SHOULDER;
   LANDMARKS.LEFT_WRIST; LANDMARKS.RIGHT_WRIST].

(** Hips and ankles. *)
Definition legLandmarks : list nat :=
  [LANDMARKS.LEFT_HIP; LANDMARKS.RIGHT_HIP;
   LANDMARKS.LEFT_ANKLE; LANDMARKS.RIGHT_ANKLE].

(** Both wrists are above their respective shoulders by more than the
    margin (y grows downwards). *)
Definition bothWristsAboveShoulders (pose : list Landmark) : bool :=
  PrimFloat.ltb (y (landmarkAt pose LANDMARKS.LEFT_WRIST))
    (PrimFloat.sub (y (landmarkAt pose LANDMARKS.LEFT_SHOULDER))
       THRESHOLDS.ARMS_UP_MARGIN)
  && PrimFloat.ltb (y (landmarkAt pose LANDMARKS.RIGHT_WRIST))
       (PrimFloat.sub (y (landmarkAt pose LANDMARKS.RIGHT_SHOULDER))
          THRESHOLDS.ARMS_UP_MARGIN).

(** The ankle spread is greater than the hip width times the ratio. *)
Definition anklesWiderThanHips (pose : list Landmark) : bool :=
  PrimFloat.ltb
    (PrimFloat.mul
       (PrimFloat.abs
          (PrimFloat.sub (x (landmarkAt pose LANDMARKS.RIGHT_HIP))
             (x (landmarkAt pose LANDMARKS.LEFT_HIP))))
       THRESHOLDS.FEET_SPREAD_RATIO)
    (PrimFloat.abs
       (PrimFloat.sub (x (landmarkAt pose LANDMARKS.RIGHT_ANKLE))
          (x (landmarkAt pose LANDMARKS.LEFT_ANKLE)))).

(** What the detector of a session shows once it has processed the frame,
    before the session looks at it. *)
Definition detectorAfter (now : Z) (pose : option (list Landmark))
    (s : WebcamFeed.Session) : Detector :=
  match pose with
  | None => WebcamFeed.detectorRef s
  | Some p => processFrame now p (WebcamFeed.detectorRef s)
  end.

(** The detector left to itself: what [createJumpingJackDetector]'s
    [processFrame] makes of [d] over the frames of a stream that carry a
    pose, no session looking at it and nothing resetting it. *)
Fixpoint detectorOver (frames : list (Z * option (list Landmark)))
    (d : Detector) : Detector :=
  match frames with
  | [] => d
  | (now, Some pose) :: rest => detectorOver rest (processFrame now pose d)
  | (_, None) :: rest => detectorOver rest d
  end.

(** The number of frames of a stream on which the session's detector counted
    a rep. *)
Fixpoint countedReps (targetReps : nat)
    (frames : list (Z * option (list Landmark))) (s : WebcamFeed.Session)
  : nat :=
  match frames with
  | [] => 0
  | (now, pose) :: rest =>
      (if Nat.ltb (getReps (WebcamFeed.detectorRef s))
            (getReps (detectorAfter now pose s))
       then 1 else 0)
      + countedReps targetReps rest
          (fst (WebcamFeed.processFrame targetReps now pose s))
  end.

(** What every reachable ledger satisfies: the counters are non-negative
    and no more was spent than earned. *)
Definition consistent (l : Ledger.Ledger) : Prop :=
  (0 <= Ledger.spent l <= Ledger.earned l)%Z.

(** The event of a completed set of 20 jumping jacks. *)
Definition twentyJumpingJacks : WebcamFeed.CompletionEvent :=
  WebcamFeed.mkCompletionEvent "jumping_jacks"%string 20.

End SpecTerms.

(** ** exercises.ts: the debug information the overlay shows *)

Module Debug.
Import Exercises.

Record DebugInfo : Set := mkDebugInfo {
  armsUp : option bool;
  leftArmUp : option bool;
  rightArmUp : option bool;
  feetApart : option bool;
  leftWristY : option float;
  rightWristY : option float;
  leftShoulderY : option float;
  rightShoulderY : option float;
  leftAnkleVisible : bool;
  rightAnkleVisible : bool
}.

(** [(landmark?.visibility ?? 0) > MIN_VISIBILITY], on [pose[index]]
    itself. *)
Definition rawVisible (pose : list Landmark) (index : nat) : bool :=
  PrimFloat.ltb THRESHOLDS.MIN_VISIBILITY
    (match nth_error pose index with
     | Some landmark => visibility landmark
     | None => 0%float
     end).

Definition getDebugInfo (pose : list Landmark) : DebugInfo :=
  let leftWrist := getLandmark pose LANDMARKS.LEFT_WRIST in
  let rightWrist := getLandmark pose LANDMARKS.RIGHT_WRIST in
  let leftShoulder := getLandmark pose LANDMARKS.LEFT_SHOULDER in
  let rightShoulder := getLandmark pose LANDMARKS.RIGHT_SHOULDER in
  let leftArmUp :=
    match leftWrist, leftShoulder with
    | Some w, Some s =>
        Some (PrimFloat.ltb (y w) (PrimFloat.sub (y s) THRESHOLDS.ARMS_UP_MARGIN))
    | _, _ => None
    end in
  let rightArmUp :=
    match rightWrist, rightShoulder with
    | Some w, Some s =>
        Some (PrimFloat.ltb (y w) (PrimFloat.sub (y s) THRESHOLDS.ARMS_UP_MARGIN))
    | _, _ => None
    end in
  {| armsUp := areArmsUp pose;
     leftArmUp := leftArmUp;
     rightArmUp := rightArmUp;
     feetApart := areFeetApart pose;
     leftWristY := option_map y leftWrist;
     rightWristY := option_map y rightWrist;
     leftShoulderY := option_map y leftShoulder;
     rightShoulderY := option_map y rightShoulder;
     leftAnkleVisible := rawVisible pose LANDMARKS.LEFT_ANKLE;
     rightAnkleVisible := rawVisible pose LANDMARKS.RIGHT_ANKLE |}.

End Debug.

(** ** mediapipe.ts: from the pose model's result to a [Landmark[]] *)

Module Mediapipe.





End Mediapipe.

(** ** exercises.ts, the revision without debounce

    The file also holds its earlier revision: the arms are up when the
    average wrist is above the average shoulder by a margin of 0.05, and the
    detector has no clock. [getLandmark] and [areFeetApart] are the same text
    in both revisions, with the same thresholds, and are shared. *)

Module ExercisesV1.
Import Exercises.

Module THRESHOLDS.
Definition ARMS_UP_MARGIN : float := 0.05%float.
Definition FEET_SPREAD_RATIO : float := 2.0%float.
Definition MIN_VISIBILITY : float := 0.3%float.
End THRESHOLDS.

Definition areArmsUp (pose : list Landmark) : option bool :=
  match getLandmark pose LANDMARKS.LEFT_SHOULDER,
        getLandmark pose LANDMARKS.RIGHT_SHOULDER,
        getLandmark pose LANDMARKS.LEFT_WRIST,
        getLandmark pose LANDMARKS.RIGHT_WRIST with
  | Some leftShoulder, Some rightShoulder, Some leftWrist, Some rightWrist =>
      let avgShoulderY :=
        PrimFloat.div (PrimFloat.add (y leftShoulder) (y rightShoulder))
          2%float in
      let avgWristY :=
        PrimFloat.div (PrimFloat.add (y leftWrist) (y rightWrist)) 2%float in
      Some (PrimFloat.ltb avgWristY
              (PrimFloat.sub avgShoulderY THRESHOLDS.ARMS_UP_MARGIN))
  | _, _, _, _ => None
  end.

Definition detectJumpingJackPosition (pose : list Landmark) : JumpingJackState :=
  if Nat.ltb (List.length pose) 33 then unknown
  else
    let armsUp := areArmsUp pose in
    let feetApart := areFeetApart pose in
    match armsUp with
    | None => unknown
    | Some armsUp =>
        match feetApart with
        | None => if armsUp then up else down
        | Some feetApart =>
            if armsUp && feetApart then up
            else if negb armsUp && negb feetApart then down
            else transition
        end
    end.

Record Detector : Set := mkDetector {
  reps : nat;
  currentState : JumpingJackState;
  hasReachedUp : bool
}.

Definition createJumpingJackDetector : Detector :=
  {| reps := 0; currentState := unknown; hasReachedUp := false |}.

Definition processFrame (pose : list Landmark) (d : Detector) : Detector :=
  let newState := detectJumpingJackPosition pose in
  if JumpingJackState_eqb newState unknown then d
  else
    let hasReachedUp1 :=
      if JumpingJackState_eqb newState up then true else hasReachedUp d in
    if JumpingJackState_eqb newState down && hasReachedUp1
       && negb (JumpingJackState_eqb (currentState d) down)
    then {| reps := S (reps d); currentState := newState;
            hasReachedUp := false |}
    else {| reps := reps d; currentState := newState;
            hasReachedUp := hasReachedUp1 |}.

Definition getReps (d : Detector) : nat := reps d.

Definition getState (d : Detector) : JumpingJackState := currentState d.

Definition reset (d : Detector) : Detector :=
  {| reps := 0; currentState := unknown; hasReachedUp := false |}.

Fixpoint processFrames (frames : list (list Landmark)) (d : Detector) : Detector :=
  match frames with
  | [] => d
  | pose :: rest => processFrames rest (processFrame pose d)
  end.

End ExercisesV1.

(** ** websocket.ts: the client of the balance server

    A message of the server is modelled after [JSON.parse]: an object whose
    [type] is a string and whose other fields may be missing. The counts the
    server sends are integers. Calling a handler is a value of
    [HandlerCall]; what the handler does is up to the caller of
    [createWebSocketClient]. *)

Module WebSocketClient.
Import String.
Local Open Scope string_scope.

Record Balance : Set := mkBalance {
  requestsAvailable : Z;
  requestsEarned : Z;
  requestsSpent : Z
}.

Record RequestAwarded : Set := mkRequestAwarded {
  exercise : string;
  requests : Z;
  message : string
}.

Record ServerMessage : Set := mkServerMessage {
  type : string;
  requests_available : option Z;
  requests_earned : option Z;
  requests_spent : option Z;
  msg_exercise : option string;
  msg_requests : option Z;
  msg_message : option string
}.

Inductive HandlerCall : Set :=
  | OnConnect
  | OnDisconnect
  | OnBalanceUpdate (balance : Balance)
  | OnRequestAwarded (data : RequestAwarded)
  | OnError (message : string).

(** [v ?? d] *)
Definition orElse {A : Type} (v : option A) (d : A) : A :=
  match v with Some a => a | None => d end.

Definition onopen : HandlerCall := OnConnect.

Definition onclose : HandlerCall := OnDisconnect.

Definition onerror : HandlerCall := OnError "WebSocket connection error".

(** The [switch] of [ws.onmessage]; [None] when no case matches. *)
Definition onmessage (data : ServerMessage) : option HandlerCall :=
  if String.eqb (type data) "balance_update" then
    Some (OnBalanceUpdate
            {| requestsAvailable := orElse (requests_available data) 0%Z;
               requestsEarned := orElse (requests_earned data) 0%Z;
               requestsSpent := orElse (requests_spent data) 0%Z |})
  else if String.eqb (type data) "request_awarded" then
    Some (OnRequestAwarded
            {| exercise := orElse (msg_exercise data) "";
               requests := orElse (msg_requests data) 0%Z;
               message := orElse (msg_message data) "" |})
  else if String.eqb (type data) "error" then
    Some (OnError (orElse (msg_message data) "Unknown error"))
  else None.

(** [WebSocket.OPEN] *)
Definition OPEN : nat := 1.

(** The object [sendExerciseComplete] serialises. *)
Record ExerciseComplete : Set := mkExerciseComplete {
  out_type : string;
  out_exercise : string;
  out_reps : nat
}.

(** What [sendExerciseComplete] hands to [ws.send], given the socket's
    [readyState]: nothing unless the socket is open. *)
Definition sendExerciseComplete (readyState : nat) (exercise : string)
    (reps : nat) : list ExerciseComplete :=
  let message := {| out_type := "exercise_complete";
                    out_exercise := exercise;
                    out_reps := reps |} in
  if Nat.eqb readyState OPEN then [message] else [].

End WebSocketClient.

(** ** useStore.ts *)

Module Store.
Import String.

Record AppState : Set := mkAppState {
  requestsAvailable : Z;
  requestsEarned : Z;
  requestsSpent : Z;
  currentReps : nat;
  isConnected : bool;
  lastMessage : option string
}.

Definition initial : AppState :=
  {| requestsAvailable := 0; requestsEarned := 0; requestsSpent := 0;
     currentReps := 0; isConnected := false; lastMessage := None |}.

Definition setBalance (balance : WebSocketClient.Balance) (st : AppState) : AppState :=
  {| requestsAvailable := WebSocketClient.requestsAvailable balance;
     requestsEarned := WebSocketClient.requestsEarned balance;
     requestsSpent := WebSocketClient.requestsSpent balance;
     currentReps := currentReps st;
     isConnected := isConnected st;
     lastMessage := lastMessage st |}.

Definition incrementReps (st : AppState) : AppState :=
  {| requestsAvailable := requestsAvailable st;
     requestsEarned := requestsEarned st;
     requestsSpent := requestsSpent st;
     currentReps := currentReps st + 1;
     isConnected := isConnected st;
     lastMessage := lastMessage st |}.

Definition resetReps (st : AppState) : AppState :=
  {| requestsAvailable := requestsAvailable st;
     requestsEarned := requestsEarned st;
     requestsSpent := requestsSpent st;
     currentReps := 0;
     isConnected := isConnected st;
     lastMessage := lastMessage st |}.

Definition setConnected (connected : bool) (st : AppState) : AppState :=
  {| requestsAvailable := requestsAvailable st;
     requestsEarned := requestsEarned st;
     requestsSpent := requestsSpent st;
     currentReps := currentReps st;
     isConnected := connected;
     lastMessage := lastMessage st |}.

Definition setLastMessage (message : string) (st : AppState) : AppState :=
  {| requestsAvailable := requestsAvailable st;
     requestsEarned := requestsEarned st;
     requestsSpent := requestsSpent st;
     currentReps := currentReps st;
     isConnected := isConnected st;
     lastMessage := Some message |}.

Definition clearMessage (st : AppState) : AppState :=
  {| requestsAvailable := requestsAvailable st;
     requestsEarned := requestsEarned st;
     requestsSpent := requestsSpent st;
     currentReps := currentReps st;
     isConnected := isConnected st;
     lastMessage := None |}.

End Store.

(** ** App.tsx and WebcamFeed: the application around the detector *)

Module App.
Import String.
Import Exercises.
Local Open Scope string_scope.

Definition TARGET_REPS : nat := 20.

(** The handlers [App] passes to [createWebSocketClient]. *)
Definition handle (call : WebSocketClient.HandlerCall) (st : Store.AppState)
  : Store.AppState :=
  match call with
  | WebSocketClient.OnConnect => Store.setConnected true st
  | WebSocketClient.OnDisconnect => Store.setConnected false st
  | WebSocketClient.OnBalanceUpdate balance => Store.setBalance balance st
  | WebSocketClient.OnRequestAwarded data =>
      Store.setLastMessage (WebSocketClient.message data) st
  | WebSocketClient.OnError message =>
      Store.setLastMessage ("Error: " ++ message) st
  end.

(** [handleExerciseComplete]: [wsRef] is the [readyState] of the socket
    [wsRef.current] holds, if it holds one. *)
Definition handleExerciseComplete (wsRef : option nat) (exercise : string)
    (reps : nat) : list WebSocketClient.ExerciseComplete :=
  match wsRef with
  | Some readyState =>
      WebSocketClient.sendExerciseComplete readyState exercise reps
  | None => []
  end.

(** The detector of [WebcamFeed] and the store. *)
Record State : Set := mkState {
  detector : Detector;
  store : Store.AppState
}.

Definition initial : State :=
  {| detector := createJumpingJackDetector; store := Store.initial |}.

(** What reaches the application: a video frame with the pose found in it,
    if any, the clock and the socket as they are then; or an event of the
    socket. *)
Inductive Event : Set :=
  | VideoFrame (wsRef : option nat) (now : Z) (pose : option (list Landmark))
  | SocketOpen
  | SocketClose
  | SocketError
  | SocketMessage (data : WebSocketClient.ServerMessage).

(** The frame callback of [WebcamFeed] with [App]'s [onExerciseComplete] and
    [TARGET_REPS], on the store itself. *)
Definition videoFrame (wsRef : option nat) (now : Z)
    (pose : option (list Landmark)) (a : State)
  : State * list WebSocketClient.ExerciseComplete :=
  match pose with
  | None => (a, [])
  | Some pose =>
      let prevReps := getReps (detector a) in
      let detector1 := processFrame now pose (detector a) in
      let newReps := getReps detector1 in
      if Nat.ltb prevReps newReps then
        let store1 := Store.incrementReps (store a) in
        if Nat.leb TARGET_REPS newReps then
          ({| detector := reset detector1; store := Store.resetReps store1 |},
           handleExerciseComplete wsRef "jumping_jacks" newReps)
        else ({| detector := detector1; store := store1 |}, [])
      else ({| detector := detector1; store := store a |}, [])
  end.

Definition socketEvent (call : option WebSocketClient.HandlerCall) (a : State)
  : State :=
  match call with
  | Some c => {| detector := detector a; store := handle c (store a) |}
  | None => a
  end.

Definition step (a : State) (e : Event)
  : State * list WebSocketClient.ExerciseComplete :=
  match e with
  | VideoFrame wsRef now pose => videoFrame wsRef now pose a
  | SocketOpen => (socketEvent (Some WebSocketClient.onopen) a, [])
  | SocketClose => (socketEvent (Some WebSocketClient.onclose) a, [])
  | SocketError => (socketEvent (Some WebSocketClient.onerror) a, [])
  | SocketMessage data => (socketEvent (WebSocketClient.onmessage data) a, [])
  end.

(** A whole run: the final state and everything handed to [ws.send], in
    order. *)
Fixpoint run (events : list Event) (a : State)
  : State * list WebSocketClient.ExerciseComplete :=
  match events with
  | [] => (a, [])
  | e :: rest =>
      let (a1, sent1) := step a e in
      let (a2, sent2) := run rest a1 in
      (a2, (sent1 ++ sent2)%list)
  end.

End App.

(** ** RepCounter.tsx: the line under the progress bar *)

Module RepCounter.

Inductive Caption : Set :=
  | SetComplete                 (* 'Set complete!' *)
  | MoreToEarn (remaining : nat). (* `${remaining} more to earn a request` *)

Definition caption (targetReps currentReps : nat) : Caption :=
  if Nat.leb targetReps currentReps then SetComplete
  else MoreToEarn (targetReps - currentReps).

End RepCounter.

(** ** WebcamFeed: what the pose overlay draws

    [drawPoseOverlay] paints on the canvas; the model keeps which dots and
    which segments it paints, in order. *)

Module Overlay.
Import Exercises.

(** shoulders, wrists, hips, ankles *)
Definition keyPoints : list nat := [11; 12; 15; 16; 23; 24; 27; 28].

Definition connections : list (nat * nat) :=
  [(11, 12); (11, 23); (12, 24); (23, 24);
   (11, 15); (12, 16); (23, 27); (24, 28)].

(** [lm && lm.visibility > 0.5], and [lm?.visibility > 0.5]: false for a
    landmark that is not there. *)
Definition wellVisible (landmarks : list Landmark) (idx : nat) : bool :=
  match nth_error landmarks idx with
  | Some lm => PrimFloat.ltb 0.5%float (visibility lm)
  | None => false
  end.

(** The key points that get a dot. *)
Definition dots (landmarks : list Landmark) : list nat :=
  filter (wellVisible landmarks) keyPoints.

(** The connections that get a segment. *)
Definition segments (landmarks : list Landmark) : list (nat * nat) :=
  filter (fun c => wellVisible landmarks (fst c) && wellVisible landmarks (snd c))
    connections.

End Overlay.

(** ** Further vocabulary *)

Module MoreTerms.
Import Exercises SpecTerms.

(** What can happen to a detector: a frame, or a call of [reset]. *)
Inductive DetectorOp : Set :=
  | Frame (now : Z) (pose : list Landmark)
  | Reset.

Definition applyOp (d : Detector) (op : DetectorOp) : Detector :=
  match op with
  | Frame now pose => processFrame now pose d
  | Reset => reset d
  end.

Definition applyOps (ops : list DetectorOp) (d : Detector) : Detector :=
  fold_left applyOp ops d.

(** The number of frames of a sequence that are classified [s]. *)
Definition classifiedAs (s : JumpingJackState)
    (frames : list (Z * list Landmark)) : nat :=
  List.length
    (filter (fun f => JumpingJackState_eqb (detectJumpingJackPosition (snd f)) s)
       frames).

(** What the classifier reads of a landmark of the arms: its height and its
    visibility; and of a landmark of the legs: its abscissa and its
    visibility. *)
Definition sameArmReading (p q : list Landmark) (i : nat) : Prop :=
  y (landmarkAt p i) = y (landmarkAt q i) /\
  visibility (landmarkAt p i) = visibility (landmarkAt q i).

Definition sameLegReading (p q : list Landmark) (i : nat) : Prop :=
  x (landmarkAt p i) = x (landmarkAt q i) /\
  visibility (landmarkAt p i) = visibility (landmarkAt q i).

(** The pace the debounce imposes, for frames processed at times between
    [a] and [b]: a detector that has accepted a frame did so at [b] at the
    latest, and has had the time for its reps, a second each, and for the
    Up of the rep under way, half a second. *)
Definition paced (a b : Z) (d : Detector) : Prop :=
  d = createJumpingJackDetector \/
  ((1000 * Z.of_nat (reps d) + (if hasReachedUp d then 500 else 0) + a
    <= lastStateChangeTime d + 500)%Z /\
   (lastStateChangeTime d <= b)%Z).

(** [pose] with every depth replaced by [depth] and its first landmark (the
    nose) moved to the origin. *)
Definition flattened (depth : float) (pose : list Landmark) : list Landmark :=
  TestPoses.setAt
    (map (fun l => mkLandmark (x l) (y l) depth (visibility l)) pose)
    0 (mkLandmark 0%float 0%float depth 1%float).

(** A stream is _slow_ after time [last] when its first frame comes a
    debounce interval after [last] at least, and every frame a debounce
    interval after the one before. *)
Fixpoint slow (last : Z) (frames : list (Z * list Landmark)) : Prop :=
  match frames with
  | [] => True
  | (now, _) :: rest =>
      (last + THRESHOLDS.STATE_CHANGE_DEBOUNCE_MS <= now)%Z /\ slow now rest
  end.

(** [n] times an Up pose and a Down pose, for the detector without clock. *)
Fixpoint cycles (n : nat) (pU pD : list Landmark) : list (list Landmark) :=
  match n with
  | O => []
  | S k => pU :: pD :: cycles k pU pD
  end.

(** The two detectors show the same count, state and flag. *)
Definition agree (d1 : ExercisesV1.Detector) (d2 : Detector) : Prop :=
  ExercisesV1.reps d1 = reps d2 /\
  ExercisesV1.currentState d1 = currentState d2 /\
  ExercisesV1.hasReachedUp d1 = hasReachedUp d2.

End MoreTerms.

(** ** Vocabulary for the application *)

Module AppTerms.
Import String.
Import Exercises.

(** The video frames among the events of the application, in order. *)
Fixpoint videoFrames (events : list App.Event)
  : list (Z * option (list Landmark)) :=
  match events with
  | [] => []
  | App.VideoFrame _ now pose :: rest => (now, pose) :: videoFrames rest
  | _ :: rest => videoFrames rest
  end.

(** The socket is there and open when the video frame [e] is processed. *)
Definition socketOpen (e : App.Event) : bool :=
  match e with
  | App.VideoFrame (Some readyState) _ _ => Nat.eqb readyState WebSocketClient.OPEN
  | App.VideoFrame None _ _ => false
  | _ => true
  end.

(** The socket is missing or not open when the video frame [e] is
    processed. *)
Definition socketNotOpen (e : App.Event) : bool :=
  match e with
  | App.VideoFrame (Some readyState) _ _ =>
      negb (Nat.eqb readyState WebSocketClient.OPEN)
  | _ => true
  end.

(** The message a completed set of 20 jumping jacks is reported with. *)
Definition twentyJumpingJacksMessage : WebSocketClient.ExerciseComplete :=
  WebSocketClient.mkExerciseComplete "exercise_complete"%string
    "jumping_jacks"%string 20.

(** The balance the last [balance_update] among the events carries, a
    missing count being 0; [start] if there is none. *)
Definition balanceAfter (events : list App.Event)
    (start : WebSocketClient.Balance) : WebSocketClient.Balance :=
  fold_left
    (fun acc e =>
       match e with
       | App.SocketMessage data =>
           if String.eqb (WebSocketClient.type data) "balance_update"
           then WebSocketClient.mkBalance
                  (WebSocketClient.orElse
                     (WebSocketClient.requests_available data) 0%Z)
                  (WebSocketClient.orElse
                     (WebSocketClient.requests_earned data) 0%Z)
                  (WebSocketClient.orElse
                     (WebSocketClient.requests_spent data) 0%Z)
           else acc
       | _ => acc
       end)
    events start.

(** Whether the last opening or closing of the socket among the events is
    an opening; [start] if there is none. *)
Definition connectedAfter (events : list App.Event) (start : bool) : bool :=
  fold_left
    (fun acc e =>
       match e with
       | App.SocketOpen => true
       | App.SocketClose => false
       | _ => acc
       end)
    events start.

(** The balance a store shows. *)
Definition shownBalance (st : Store.AppState) : WebSocketClient.Balance :=
  WebSocketClient.mkBalance (Store.requestsAvailable st)
    (Store.requestsEarned st) (Store.requestsSpent st).

(** The session a state of the application stands for. *)
Definition sessionOf (a : App.State) : WebcamFeed.Session :=
  WebcamFeed.mkSession (App.detector a) (Store.currentReps (App.store a)).

End AppTerms.

(** * Properties *)

Module TestSuite.
Import Exercises TestPoses.

(** The expectations of [exercises.test.ts], replayed on the embedding. *)

Example detect_down : detectJumpingJackPosition downPose = down.
Proof. vm_compute. reflexivity. Qed.

Example detect_up : detectJumpingJackPosition upPose = up.
Proof. vm_compute. reflexivity. Qed.

Example detect_one_arm_only :
  detectJumpingJackPosition poseLeftOnly = transition
  /\ detectJumpingJackPosition poseRightOnly = transition.
Proof. vm_compute. split; reflexivity. Qed.

Example detect_arms_only : detectJumpingJackPosition armsOnlyPose = transition.
Proof. vm_compute. reflexivity. Qed.

Example detect_feet_only : detectJumpingJackPosition feetOnlyPose = transition.
Proof. vm_compute. reflexivity. Qed.

Example detect_empty : detectJumpingJackPosition [] = unknown.
Proof. reflexivity. Qed.

Example starts_with_zero_reps : getReps createJumpingJackDetector = 0.
Proof. reflexivity. Qed.

Example counts_a_rep :
  let d1 := processFrame T0 downPose createJumpingJackDetector in
  let d2 := processFrame (T0 + 500) upPose d1 in
  let d3 := processFrame (T0 + 1000) downPose d2 in
  getReps d1 = 0 /\ getReps d2 = 0 /\ getReps d3 = 1.
Proof. vm_compute. repeat split. Qed.

Example does_not_count_partial_movements :
  getReps (processFrames
             [(T0, downPose); (T0 + 500, downPose); (T0 + 1000, downPose)]%Z
             createJumpingJackDetector) = 0.
Proof. vm_compute. reflexivity. Qed.

Example debounces_rapid_state_changes :
  let d1 := processFrame T0 downPose createJumpingJackDetector in
  let d2 := processFrame (T0 + 100) upPose d1 in
  let d3 := processFrame (T0 + 200) downPose d2 in
  let d4 := processFrame (T0 + 700) upPose d3 in
  getState d2 = down /\ getState d3 = down /\ getState d4 = up.
Proof. vm_compute. repeat split. Qed.

Example counts_multiple_reps :
  getReps (processFrames
             [(T0, downPose); (T0 + 500, upPose); (T0 + 1000, downPose);
              (T0 + 1500, upPose); (T0 + 2000, downPose);
              (T0 + 2500, upPose); (T0 + 3000, downPose)]%Z
             createJumpingJackDetector) = 3.
Proof. vm_compute. reflexivity. Qed.

Example resets_rep_count :
  let d := processFrames
             [(T0, downPose); (T0 + 500, upPose); (T0 + 1000, downPose)]%Z
             createJumpingJackDetector in
  getReps d = 1 /\ getReps (reset d) = 0.
Proof. vm_compute. split; reflexivity. Qed.

Example reports_current_state :
  let d1 := processFrame T0 downPose createJumpingJackDetector in
  getState d1 = down /\ getState (processFrame (T0 + 500) upPose d1) = up.
Proof. vm_compute. split; reflexivity. Qed.

End TestSuite.

(** ** The rep-counting state machine *)

Module DetectorFacts.
Import Exercises SpecTerms.

Lemma JumpingJackState_eqb_eq (a b : JumpingJackState) :
  JumpingJackState_eqb a b = true <-> a = b.
Proof. destruct a, b; simpl; split; intro H; congruence. Qed.

Lemma JumpingJackState_eqb_neq (a b : JumpingJackState) :
  JumpingJackState_eqb a b = false <-> a <> b.
Proof. destruct a, b; simpl; split; intro H; congruence. Qed.

(** The three early returns. *)
Lemma processFrame_unknown now pose d :
  detectJumpingJackPosition pose = unknown -> processFrame now pose d = d.
Proof. intro H. unfold processFrame. rewrite H. reflexivity. Qed.

Lemma processFrame_same now pose d :
  detectJumpingJackPosition pose = currentState d -> processFrame now pose d = d.
Proof.
  intro H. unfold processFrame. rewrite H.
  destruct (JumpingJackState_eqb (currentState d) unknown); [reflexivity|].
  replace (JumpingJackState_eqb (currentState d) (currentState d)) with true;
    [reflexivity|].
  symmetry. apply JumpingJackState_eqb_eq. reflexivity.
Qed.

Lemma processFrame_too_soon now pose d :
  (now - lastStateChangeTime d < THRESHOLDS.STATE_CHANGE_DEBOUNCE_MS)%Z ->
  processFrame now pose d = d.
Proof.
  intro H. apply Z.ltb_lt in H. unfold processFrame. rewrite H.
  destruct (JumpingJackState_eqb _ unknown); [reflexivity|].
  destruct (JumpingJackState_eqb _ (currentState d)); reflexivity.
Qed.

(** Past the early returns: the new state and the clock reading are stored,
    the flag is raised by [up], and [down] with the flag raised counts a
    rep and lowers the flag. *)
Lemma processFrame_change now pose d :
  detectJumpingJackPosition pose <> unknown ->
  detectJumpingJackPosition pose <> currentState d ->
  (lastStateChangeTime d + THRESHOLDS.STATE_CHANGE_DEBOUNCE_MS <= now)%Z ->
  processFrame now pose d =
    match detectJumpingJackPosition pose with
    | up => mkDetector (reps d) up true now
    | down =>
        if hasReachedUp d then mkDetector (S (reps d)) down false now
        else mkDetector (reps d) down false now
    | s => mkDetector (reps d) s (hasReachedUp d) now
    end.
Proof.
  intros Hk Hc Ht. unfold processFrame.
  apply JumpingJackState_eqb_neq in Hk, Hc. rewrite Hk, Hc.
  replace (now - lastStateChangeTime d <? THRESHOLDS.STATE_CHANGE_DEBOUNCE_MS)%Z
    with false by (symmetry; apply Z.ltb_ge; lia).
  destruct (detectJumpingJackPosition pose); simpl; try reflexivity.
  destruct (hasReachedUp d); reflexivity.
Qed.

Lemma accepted_iff now pose d :
  accepted now pose d <->
  detectJumpingJackPosition pose <> unknown /\
  detectJumpingJackPosition pose <> currentState d /\
  (lastStateChangeTime d + THRESHOLDS.STATE_CHANGE_DEBOUNCE_MS <= now)%Z.
Proof.
  unfold accepted. split.
  - intro H. repeat split.
    + intro E. apply H, processFrame_unknown, E.
    + intro E. apply H, processFrame_same, E.
    + destruct (Z_lt_le_dec (now - lastStateChangeTime d)
                  THRESHOLDS.STATE_CHANGE_DEBOUNCE_MS) as [L|L]; [|lia].
      exfalso. apply H, processFrame_too_soon, L.
  - intros (Hk & Hc & Ht) E.
    assert (S : currentState (processFrame now pose d)
                = detectJumpingJackPosition pose).
    { rewrite (processFrame_change now pose d Hk Hc Ht).
      destruct (detectJumpingJackPosition pose); try reflexivity.
      destruct (hasReachedUp d); reflexivity. }
    rewrite E in S. congruence.
Qed.

(** A frame either leaves the counter alone or adds one to it. *)
Lemma processFrame_reps now pose d :
  reps (processFrame now pose d) = reps d \/
  reps (processFrame now pose d) = S (reps d).
Proof.
  unfold processFrame.
  destruct (JumpingJackState_eqb _ unknown); [now left|].
  destruct (JumpingJackState_eqb _ (currentState d)); [now left|].
  destruct (_ <? _)%Z; [now left|].
  destruct (_ && _); simpl; [now right | now left].
Qed.

(** The counter rises exactly on an accepted [down] with the flag raised. *)
Lemma rep_counted_iff now pose d :
  reps (processFrame now pose d) = S (reps d) <->
  accepted now pose d /\
  detectJumpingJackPosition pose = down /\ hasReachedUp d = true.
Proof.
  split.
  - intro H.
    assert (A : accepted now pose d).
    { intro E. rewrite E in H. lia. }
    split; [exact A|].
    apply accepted_iff in A. destruct A as (Hk & Hc & Ht).
    rewrite (processFrame_change now pose d Hk Hc Ht) in H.
    destruct (detectJumpingJackPosition pose); simpl in H; try lia.
    destruct (hasReachedUp d); simpl in H; [auto | lia].
  - intros (A & Hd & Hf).
    apply accepted_iff in A. destruct A as (Hk & Hc & Ht).
    rewrite (processFrame_change now pose d Hk Hc Ht), Hd, Hf. reflexivity.
Qed.

(** Frames that are never [up] cannot raise the flag, so they count
    nothing. *)
Lemma no_up_no_rep (frames : list (Z * list Landmark)) (d : Detector) :
  Forall (fun f => detectJumpingJackPosition (snd f) <> up) frames ->
  hasReachedUp d = false ->
  reps (processFrames frames d) = reps d /\
  hasReachedUp (processFrames frames d) = false.
Proof.
  revert d. induction frames as [|[now pose] rest IH]; intros d HF Hf.
  - split; [reflexivity | exact Hf].
  - inversion HF as [|? ? Hhead Hrest]; subst. simpl in Hhead. simpl.
    assert (P : reps (processFrame now pose d) = reps d /\
                hasReachedUp (processFrame now pose d) = false).
    { unfold processFrame.
      destruct (JumpingJackState_eqb _ unknown); [now split|].
      destruct (JumpingJackState_eqb _ (currentState d)); [now split|].
      destruct (_ <? _)%Z; [now split|].
      destruct (detectJumpingJackPosition pose); simpl;
        rewrite ?Hf; simpl; try (now split); congruence. }
    destruct P as [Pr Pf].
    destruct (IH _ Hrest Pf) as [Qr Qf]. split; congruence.
Qed.

(** The same for the detector of a session, whether the frame carries a pose
    or not. *)
Lemma processFrame_reps_option now pose (s : WebcamFeed.Session) :
  getReps (detectorAfter now pose s) = getReps (WebcamFeed.detectorRef s) \/
  getReps (detectorAfter now pose s) = S (getReps (WebcamFeed.detectorRef s)).
Proof.
  destruct pose as [p|]; simpl; [|now left].
  apply processFrame_reps.
Qed.

End DetectorFacts.

Module DetectorClaims.
Import Exercises SpecTerms DetectorFacts.

(** Rewrites the next frame of the goal as an accepted change, the three side
    conditions being settled from the hypotheses at hand. *)
Ltac accept_frame :=
  rewrite processFrame_change;
  [ | match goal with
      | H : detectJumpingJackPosition _ = _ |- _ => rewrite H; simpl; congruence
      end ..
    | simpl; unfold THRESHOLDS.STATE_CHANGE_DEBOUNCE_MS in *; lia ].

(** The detector after the very first [down] frame of a fresh detector: the
    frame is dropped when the clock shows less than the debounce interval,
    and accepted otherwise. *)
Lemma first_down_frame (t0 : Z) (pD : list Landmark) :
  detectJumpingJackPosition pD = down ->
  processFrame t0 pD createJumpingJackDetector = createJumpingJackDetector \/
  ((500 <= t0)%Z /\
   processFrame t0 pD createJumpingJackDetector = mkDetector 0 down false t0).
Proof.
  intro HD. destruct (Z_lt_le_dec t0 500) as [L|L].
  - left. apply processFrame_too_soon. simpl.
    unfold THRESHOLDS.STATE_CHANGE_DEBOUNCE_MS. lia.
  - right. split; [exact L|]. accept_frame. rewrite HD. reflexivity.
Qed.

(** C1. Reps are counted only on a full debounced down-after-up cycle.
    With a clock that shows a non-negative time and at least the debounce
    interval between the frames that are accepted: from a fresh detector the
    frames Down, Up, Down give 1 rep; Down, Down, Down give 0 reps (at any
    times); Down, Up, Up, Down give 1 rep, whenever the duplicate Up arrives.
    In general one frame raises the counter, by one, exactly when it is an
    accepted change to Down (classified Down, the current state is not Down,
    the debounce interval has elapsed) while the reached-up flag is set, and
    that frame clears the flag. *)
Theorem rep_counted_on_full_debounced_cycle
    (pD pU : list Landmark) (t0 t1 t2 : Z)
    (HD : detectJumpingJackPosition pD = down)
    (HU : detectJumpingJackPosition pU = up)
    (H0 : (0 <= t0)%Z)
    (H1 : (t0 + THRESHOLDS.STATE_CHANGE_DEBOUNCE_MS <= t1)%Z)
    (H2 : (t1 + THRESHOLDS.STATE_CHANGE_DEBOUNCE_MS <= t2)%Z) :
  getReps (processFrames [(t0, pD); (t1, pU); (t2, pD)]
             createJumpingJackDetector) = 1
  /\ (forall a b c : Z,
        getReps (processFrames [(a, pD); (b, pD); (c, pD)]
                   createJumpingJackDetector) = 0)
  /\ (forall t1' : Z,
        getReps (processFrames [(t0, pD); (t1, pU); (t1', pU); (t2, pD)]
                   createJumpingJackDetector) = 1)
  /\ (forall now pose d,
        getReps (processFrame now pose d) = S (getReps d) <->
        detectJumpingJackPosition pose = down /\
        getState d <> down /\
        (lastStateChangeTime d + THRESHOLDS.STATE_CHANGE_DEBOUNCE_MS <= now)%Z /\
        hasReachedUp d = true)
  /\ (forall now pose d,
        getReps (processFrame now pose d) = S (getReps d) ->
        hasReachedUp (processFrame now pose d) = false)
  /\ (forall now pose d,
        getReps (processFrame now pose d) <> getReps d ->
        getReps (processFrame now pose d) = S (getReps d)).
Proof.
  unfold getReps, getState.
  assert (Up2 : forall d, hasReachedUp d = false -> reps d = 0 ->
            currentState d <> up -> (lastStateChangeTime d <= t0)%Z ->
            processFrame t1 pU d = mkDetector 0 up true t1).
  { intros d Hf Hr Hs Hl. accept_frame. rewrite HU, Hr. reflexivity. }
  assert (Start : processFrame t1 pU
                    (processFrame t0 pD createJumpingJackDetector)
                  = mkDetector 0 up true t1).
  { destruct (first_down_frame t0 pD HD) as [E|[L E]]; rewrite E;
      apply Up2; simpl; (congruence || lia). }
  split; [|split; [|split; [|split; [|split]]]].
  - simpl. rewrite Start. accept_frame. rewrite HD. reflexivity.
  - intros a b c.
    apply (no_up_no_rep [(a, pD); (b, pD); (c, pD)] createJumpingJackDetector).
    + repeat constructor; simpl; congruence.
    + reflexivity.
  - intro t1'. simpl. rewrite Start.
    rewrite (processFrame_same t1' pU) by (rewrite HU; reflexivity).
    accept_frame. rewrite HD. reflexivity.
  - intros now pose d. split.
    + intro H. apply rep_counted_iff in H. destruct H as (A & Hd & Hf).
      apply accepted_iff in A. destruct A as (_ & Hc & Ht).
      rewrite Hd in Hc. auto.
    + intros (Hd & Hc & Ht & Hf). apply rep_counted_iff.
      split; [|auto]. apply accepted_iff. rewrite Hd. repeat split; auto.
      discriminate.
  - intros now pose d H. apply rep_counted_iff in H.
    destruct H as (A & Hd & Hf).
    apply accepted_iff in A. destruct A as (Hk & Hc & Ht).
    rewrite (processFrame_change now pose d Hk Hc Ht), Hd, Hf. reflexivity.
  - intros now pose d H.
    destruct (processFrame_reps now pose d); congruence.
Qed.

Lemma rep_counted_on_full_debounced_cycle_witness :
  getReps (processFrames
             [(1000%Z, TestPoses.downPose); (1500%Z, TestPoses.upPose);
              (2000%Z, TestPoses.downPose)]
             createJumpingJackDetector) = 1
  /\ getReps (processFrames
                [(1000%Z, TestPoses.downPose); (1500%Z, TestPoses.upPose);
                 (1600%Z, TestPoses.upPose); (2000%Z, TestPoses.downPose)]
                createJumpingJackDetector) = 1.
Proof.
  pose proof (rep_counted_on_full_debounced_cycle
                TestPoses.downPose TestPoses.upPose 1000 1500 2000) as W.
  destruct W as (W1 & _ & W3 & _).
  - vm_compute. reflexivity.
  - vm_compute. reflexivity.
  - vm_compute. discriminate.
  - vm_compute. discriminate.
  - vm_compute. discriminate.
  - split; [exact W1 | exact (W3 1600%Z)].
Defined.

(** C2, as the specification words it, fails at the boundary: a change is
    accepted although the time elapsed since the last accepted change, exactly
    500 ms, does not exceed the debounce interval. The detector accepted Down
    when the clock showed 1000; the Up frame at 1500 is accepted as well. *)
Lemma debounce_accepts_at_exactly_the_interval :
  let d := processFrame 1000 TestPoses.downPose createJumpingJackDetector in
  getState d = down /\
  lastStateChangeTime d = 1000%Z /\
  detectJumpingJackPosition TestPoses.upPose = up /\
  ~ (1500 - lastStateChangeTime d > THRESHOLDS.STATE_CHANGE_DEBOUNCE_MS)%Z /\
  getState (processFrame 1500 TestPoses.upPose d) = up /\
  hasReachedUp (processFrame 1500 TestPoses.upPose d) = true /\
  lastStateChangeTime (processFrame 1500 TestPoses.upPose d) = 1500%Z.
Proof.
  vm_compute. repeat split; try reflexivity. intro H. discriminate H.
Qed.

(** C2, amended. A changed posture state (not Unknown, different from the
    current one) is accepted exactly when the time elapsed since the last
    accepted change is at least the debounce interval of 500 ms
    ([now - lastStateChangeTime >= 500]); it then becomes the reported state
    and [now] the time of the last change. A frame that arrives earlier is
    dropped: the whole detector (state, rep count, flag, time of the last
    change) is what it was. Hence of two frames less than the interval apart,
    the second is dropped whenever the first was accepted. *)
Theorem debounce_at_least_the_interval
    (now : Z) (pose : list Landmark) (d : Detector)
    (Hknown : detectJumpingJackPosition pose <> unknown)
    (Hchanged : detectJumpingJackPosition pose <> getState d) :
  THRESHOLDS.STATE_CHANGE_DEBOUNCE_MS = 500%Z
  /\ (accepted now pose d <->
      (now - lastStateChangeTime d >= THRESHOLDS.STATE_CHANGE_DEBOUNCE_MS)%Z)
  /\ ((now - lastStateChangeTime d >= THRESHOLDS.STATE_CHANGE_DEBOUNCE_MS)%Z ->
      getState (processFrame now pose d) = detectJumpingJackPosition pose /\
      lastStateChangeTime (processFrame now pose d) = now)
  /\ ((now - lastStateChangeTime d < THRESHOLDS.STATE_CHANGE_DEBOUNCE_MS)%Z ->
      processFrame now pose d = d)
  /\ (forall (now2 : Z) (pose2 : list Landmark),
        (now2 - now < THRESHOLDS.STATE_CHANGE_DEBOUNCE_MS)%Z ->
        accepted now pose d ->
        processFrame now2 pose2 (processFrame now pose d)
        = processFrame now pose d).
Proof.
  unfold getState in *.
  assert (Acc : (now - lastStateChangeTime d
                 >= THRESHOLDS.STATE_CHANGE_DEBOUNCE_MS)%Z ->
                processFrame now pose d =
                match detectJumpingJackPosition pose with
                | up => mkDetector (reps d) up true now
                | down =>
                    if hasReachedUp d
                    then mkDetector (S (reps d)) down false now
                    else mkDetector (reps d) down false now
                | s => mkDetector (reps d) s (hasReachedUp d) now
                end).
  { intro Ht. apply processFrame_change; auto. lia. }
  split; [reflexivity|]. split; [|split; [|split]].
  - rewrite accepted_iff. split; [intros (_ & _ & Ht); lia|].
    intro Ht. repeat split; auto. lia.
  - intro Ht. rewrite (Acc Ht).
    destruct (detectJumpingJackPosition pose); simpl; auto.
    destruct (hasReachedUp d); simpl; auto.
  - apply processFrame_too_soon.
  - intros now2 pose2 Hgap A. apply processFrame_too_soon.
    apply accepted_iff in A. destruct A as (_ & _ & Ht).
    rewrite Acc by lia.
    destruct (detectJumpingJackPosition pose); simpl; try lia.
    destruct (hasReachedUp d); simpl; lia.
Qed.

Lemma debounce_at_least_the_interval_witness :
  let d := processFrame 1000 TestPoses.downPose createJumpingJackDetector in
  getState (processFrame 1500 TestPoses.upPose d) = up /\
  processFrame 1499 TestPoses.upPose d = d /\
  processFrame 1999 TestPoses.downPose (processFrame 1500 TestPoses.upPose d)
  = processFrame 1500 TestPoses.upPose d.
Proof.
  intro d.
  pose proof (debounce_at_least_the_interval 1500 TestPoses.upPose d) as W.
  pose proof (debounce_at_least_the_interval 1499 TestPoses.upPose d) as V.
  destruct W as (_ & WA & WS & _ & W2).
  - vm_compute. discriminate.
  - vm_compute. discriminate.
  - destruct V as (_ & _ & _ & VD & _).
    + vm_compute. discriminate.
    + vm_compute. discriminate.
    + split; [|split].
      * apply WS. vm_compute. discriminate.
      * apply VD. vm_compute. reflexivity.
      * apply W2; [vm_compute; reflexivity|].
        apply WA. vm_compute. discriminate.
Defined.

(** C6. A frame classified Unknown, and a frame classified as the current
    state, leave the whole detector as it was: rep count, reported state,
    reached-up flag and time of the last accepted change. *)
Theorem unknown_and_same_state_frames_ignored
    (now : Z) (pose : list Landmark) (d : Detector)
    (H : detectJumpingJackPosition pose = unknown \/
         detectJumpingJackPosition pose = getState d) :
  getReps (processFrame now pose d) = getReps d
  /\ getState (processFrame now pose d) = getState d
  /\ hasReachedUp (processFrame now pose d) = hasReachedUp d
  /\ lastStateChangeTime (processFrame now pose d) = lastStateChangeTime d
  /\ processFrame now pose d = d.
Proof.
  assert (E : processFrame now pose d = d).
  { destruct H as [H|H];
      [apply processFrame_unknown | apply processFrame_same]; exact H. }
  rewrite E. repeat split.
Qed.

Lemma unknown_and_same_state_frames_ignored_witness :
  let d := processFrame 1000 TestPoses.downPose createJumpingJackDetector in
  processFrame 9000 TestPoses.downPose d = d /\ processFrame 9000 [] d = d.
Proof.
  intro d. split.
  - apply (unknown_and_same_state_frames_ignored 9000 TestPoses.downPose d).
    right. vm_compute. reflexivity.
  - apply (unknown_and_same_state_frames_ignored 9000 [] d).
    left. vm_compute. reflexivity.
Defined.

(** C7. A pose array with fewer than 33 entries, the empty one included, is
    classified Unknown; the classifier is a total function, so nothing fails,
    and the frame is absorbed: the detector is left exactly as it was, and a
    session that receives the frame keeps its state and emits nothing. *)
Theorem short_pose_is_unknown
    (pose : list Landmark) (H : List.length pose < 33) :
  detectJumpingJackPosition pose = unknown
  /\ (forall now d, processFrame now pose d = d)
  /\ (forall targetReps now s,
        WebcamFeed.processFrame targetReps now (Some pose) s = (s, None)).
Proof.
  assert (E : detectJumpingJackPosition pose = unknown).
  { unfold detectJumpingJackPosition.
    apply Nat.ltb_lt in H. rewrite H. reflexivity. }
  split; [exact E|]. split.
  - intros now d. apply processFrame_unknown, E.
  - intros targetReps now s. unfold WebcamFeed.processFrame.
    rewrite (processFrame_unknown now pose _ E), Nat.ltb_irrefl.
    destruct s; reflexivity.
Qed.

Lemma short_pose_is_unknown_witness :
  detectJumpingJackPosition [] = unknown
  /\ detectJumpingJackPosition (firstn 32 TestPoses.upPose) = unknown.
Proof.
  split.
  - apply (short_pose_is_unknown []). simpl. lia.
  - apply (short_pose_is_unknown (firstn 32 TestPoses.upPose)).
    vm_compute. lia.
Defined.

(** C8. Processing a frame never lowers the rep count and raises it by at
    most one; the same holds, for the lower bound, over any sequence of
    frames; [reset] is what takes the count back to zero. *)
Theorem reps_monotone (now : Z) (pose : list Landmark) (d : Detector) :
  getReps d <= getReps (processFrame now pose d)
  /\ getReps (processFrame now pose d) <= getReps d + 1
  /\ (forall frames, getReps d <= getReps (processFrames frames d))
  /\ getReps (reset d) = 0.
Proof.
  unfold getReps.
  assert (One : forall n p e, reps e <= reps (processFrame n p e) <= reps e + 1).
  { intros n p e. destruct (processFrame_reps n p e); lia. }
  split; [apply One|]. split; [apply One|]. split; [|reflexivity].
  intro frames. revert d.
  induction frames as [|[n p] rest IH]; intro d; simpl; [lia|].
  specialize (IH (processFrame n p d)). specialize (One n p d). lia.
Qed.

End DetectorClaims.

(** ** The per-frame classifier *)

Module ClassifierFacts.
Import Exercises SpecTerms.

(** On an index inside the array, [getLandmark] yields the landmark exactly
    when it meets the visibility threshold. *)
Lemma getLandmark_inside (pose : list Landmark) (index : nat) :
  index < List.length pose ->
  getLandmark pose index =
    if meetsVisibility (landmarkAt pose index)
    then Some (landmarkAt pose index) else None.
Proof.
  intro H. unfold getLandmark, meetsVisibility, landmarkAt.
  rewrite (nth_error_nth' pose (mkLandmark 0 0 0 0) H).
  destruct (PrimFloat.ltb _ _); reflexivity.
Qed.

Lemma Forall_four {A} (P : A -> Prop) (a b c d : A) :
  Forall P [a; b; c; d] <-> P a /\ P b /\ P c /\ P d.
Proof.
  split.
  - intro H. inversion_clear H as [|? ? Ha H1]. inversion_clear H1 as [|? ? Hb H2].
    inversion_clear H2 as [|? ? Hc H3]. inversion_clear H3 as [|? ? Hd _]. auto.
  - intros (Ha & Hb & Hc & Hd). repeat constructor; assumption.
Qed.

Lemma Exists_four {A} (P : A -> Prop) (a b c d : A) :
  Exists P [a; b; c; d] <-> P a \/ P b \/ P c \/ P d.
Proof.
  split.
  - intro H. repeat (inversion_clear H as [? ? H1|? ? H1]; [tauto | rename H1 into H]).
    inversion H.
  - intros [H|[H|[H|H]]];
      [ apply Exists_cons_hd
      | apply Exists_cons_tl, Exists_cons_hd
      | apply Exists_cons_tl, Exists_cons_tl, Exists_cons_hd
      | apply Exists_cons_tl, Exists_cons_tl, Exists_cons_tl, Exists_cons_hd ];
      exact H.
Qed.

(** With the four arm landmarks available, [areArmsUp] is the arms-up
    predicate. *)
Lemma areArmsUp_available (pose : list Landmark) :
  33 <= List.length pose ->
  Forall (fun i => meetsVisibility (landmarkAt pose i) = true) armLandmarks ->
  areArmsUp pose = Some (bothWristsAboveShoulders pose).
Proof.
  intros Hlen Hv. apply Forall_four in Hv. destruct Hv as (V1 & V2 & V3 & V4).
  unfold areArmsUp, bothWristsAboveShoulders.
  rewrite !getLandmark_inside
    by (unfold LANDMARKS.LEFT_SHOULDER, LANDMARKS.RIGHT_SHOULDER,
          LANDMARKS.LEFT_WRIST, LANDMARKS.RIGHT_WRIST; lia).
  rewrite V1, V2, V3, V4. reflexivity.
Qed.

(** With the four leg landmarks available, [areFeetApart] is the feet-apart
    predicate; with one of them unavailable it is [null]. *)
Lemma areFeetApart_available (pose : list Landmark) :
  33 <= List.length pose ->
  Forall (fun i => meetsVisibility (landmarkAt pose i) = true) legLandmarks ->
  areFeetApart pose = Some (anklesWiderThanHips pose).
Proof.
  intros Hlen Hv. apply Forall_four in Hv. destruct Hv as (V1 & V2 & V3 & V4).
  unfold areFeetApart, anklesWiderThanHips.
  rewrite !getLandmark_inside
    by (unfold LANDMARKS.LEFT_HIP, LANDMARKS.RIGHT_HIP,
          LANDMARKS.LEFT_ANKLE, LANDMARKS.RIGHT_ANKLE; lia).
  rewrite V1, V2, V3, V4. reflexivity.
Qed.

Lemma areFeetApart_unavailable (pose : list Landmark) :
  33 <= List.length pose ->
  Exists (fun i => meetsVisibility (landmarkAt pose i) = false) legLandmarks ->
  areFeetApart pose = None.
Proof.
  intros Hlen Hv. apply Exists_four in Hv.
  unfold areFeetApart.
  rewrite !getLandmark_inside
    by (unfold LANDMARKS.LEFT_HIP, LANDMARKS.RIGHT_HIP,
          LANDMARKS.LEFT_ANKLE, LANDMARKS.RIGHT_ANKLE; lia).
  destruct Hv as [V|[V|[V|V]]]; rewrite V;
    repeat match goal with
           | |- context [if ?b then _ else _] => destruct b
           end; reflexivity.
Qed.

(** *** Meeting the threshold, for a visibility that is a number

    [getLandmark] tests [visibility < MIN_VISIBILITY]. For every visibility
    that is a number (any float but NaN, so every confidence in [0,1]) the
    landmark passes exactly when [MIN_VISIBILITY <= visibility]. *)

Lemma SFcompare_antisym (a b : spec_float) :
  SFcompare b a = option_map CompOpp (SFcompare a b).
Proof.
  destruct a as [sa|sa| |sa ma ea], b as [sb|sb| |sb mb eb]; simpl;
    try reflexivity;
    try (destruct sa; reflexivity); try (destruct sb; reflexivity);
    try (destruct sa, sb; reflexivity).
  destruct sa, sb; try reflexivity;
    rewrite (Z.compare_antisym ea eb);
    destruct (ea ?= eb)%Z; simpl; try reflexivity;
    rewrite (Pos.compare_cont_antisym ma mb Eq); simpl;
    rewrite ?CompOpp_involutive; reflexivity.
Qed.

Lemma SFcompare_None (a b : spec_float) :
  SFcompare a b = None -> a = S754_nan \/ b = S754_nan.
Proof. destruct a, b; simpl; intro H; try discriminate; auto. Qed.

Lemma not_ltb_is_leb (v m : float) :
  PrimFloat.is_nan v = false -> PrimFloat.is_nan m = false ->
  negb (PrimFloat.ltb v m) = PrimFloat.leb m v.
Proof.
  unfold PrimFloat.is_nan.
  rewrite !FloatAxioms.eqb_spec, FloatAxioms.ltb_spec, FloatAxioms.leb_spec.
  unfold SFeqb, SFltb, SFleb.
  rewrite (SFcompare_antisym (Prim2SF v) (Prim2SF m)).
  intros Hv Hm.
  destruct (SFcompare (Prim2SF v) (Prim2SF m)) as [[| |]|] eqn:C;
    simpl; try reflexivity.
  apply SFcompare_None in C.
  destruct C as [C|C]; rewrite C in *; simpl in *; discriminate.
Qed.

Lemma SFcompare_refl (a : spec_float) :
  a <> S754_nan -> SFcompare a a = Some Eq.
Proof.
  destruct a as [sa|sa| |sa ma ea]; simpl; intro H;
    try congruence; try (destruct sa; reflexivity).
  destruct sa; rewrite Z.compare_refl, Pos.compare_cont_refl; reflexivity.
Qed.

Lemma leb_is_number (m v : float) :
  PrimFloat.leb m v = true -> PrimFloat.is_nan v = false.
Proof.
  unfold PrimFloat.is_nan.
  rewrite FloatAxioms.eqb_spec, FloatAxioms.leb_spec. unfold SFeqb, SFleb.
  intro H.
  assert (N : Prim2SF v <> S754_nan).
  { intro E. rewrite E in H. destruct (Prim2SF m); discriminate H. }
  rewrite (SFcompare_refl _ N). reflexivity.
Qed.

Lemma meetsVisibility_number (l : Landmark) :
  PrimFloat.is_nan (visibility l) = false ->
  meetsVisibility l = PrimFloat.leb THRESHOLDS.MIN_VISIBILITY (visibility l).
Proof.
  intro H. unfold meetsVisibility. apply not_ltb_is_leb; [exact H|].
  vm_compute. reflexivity.
Qed.

Lemma meetsVisibility_at_least (l : Landmark) :
  PrimFloat.leb THRESHOLDS.MIN_VISIBILITY (visibility l) = true ->
  meetsVisibility l = true.
Proof.
  intro H. rewrite meetsVisibility_number; [exact H|].
  apply (leb_is_number _ _ H).
Qed.

Lemma meetsVisibility_below (l : Landmark) :
  meetsVisibility l = false <->
  PrimFloat.ltb (visibility l) THRESHOLDS.MIN_VISIBILITY = true.
Proof. unfold meetsVisibility. apply negb_false_iff. Qed.

Lemma long_enough (pose : list Landmark) :
  33 <= List.length pose -> Nat.ltb (List.length pose) 33 = false.
Proof. intro H. apply Nat.ltb_ge. exact H. Qed.

End ClassifierFacts.

Module ClassifierClaims.
Import Exercises SpecTerms ClassifierFacts.

(** C5. For a pose of at least 33 landmarks whose eight required landmarks
    (shoulders, wrists, hips, ankles) all meet the visibility threshold, the
    classifier returns Up exactly when both wrists are above their
    shoulders by more than the margin and the ankle spread exceeds the hip
    width times the ratio, Down exactly when both predicates are false, and
    Transition in every other case (exactly one of them holds); it never
    returns Unknown. A landmark meets the threshold when its visibility is
    not below [MIN_VISIBILITY]; [meetsVisibility_at_least] shows that
    [MIN_VISIBILITY <= visibility] is enough. *)
Theorem full_body_classification
    (pose : list Landmark)
    (Hlen : 33 <= List.length pose)
    (Harms : Forall (fun i => meetsVisibility (landmarkAt pose i) = true)
               armLandmarks)
    (Hlegs : Forall (fun i => meetsVisibility (landmarkAt pose i) = true)
               legLandmarks) :
  (detectJumpingJackPosition pose = up <->
     bothWristsAboveShoulders pose = true /\ anklesWiderThanHips pose = true)
  /\ (detectJumpingJackPosition pose = down <->
        bothWristsAboveShoulders pose = false /\
        anklesWiderThanHips pose = false)
  /\ (detectJumpingJackPosition pose = transition <->
        bothWristsAboveShoulders pose <> anklesWiderThanHips pose)
  /\ detectJumpingJackPosition pose <> unknown.
Proof.
  unfold detectJumpingJackPosition.
  rewrite (long_enough pose Hlen), (areArmsUp_available pose Hlen Harms),
    (areFeetApart_available pose Hlen Hlegs).
  destruct (bothWristsAboveShoulders pose), (anklesWiderThanHips pose);
    simpl; repeat split; intros; try congruence;
    match goal with H : _ /\ _ |- _ => destruct H; congruence end.
Qed.

Lemma full_body_classification_witness :
  detectJumpingJackPosition TestPoses.upPose = up
  /\ detectJumpingJackPosition TestPoses.downPose = down
  /\ detectJumpingJackPosition TestPoses.armsOnlyPose = transition.
Proof.
  assert (V : forall pose,
            forallb (fun i => meetsVisibility (landmarkAt pose i))
              (armLandmarks ++ legLandmarks) = true ->
            Forall (fun i => meetsVisibility (landmarkAt pose i) = true)
              armLandmarks /\
            Forall (fun i => meetsVisibility (landmarkAt pose i) = true)
              legLandmarks).
  { intros pose H. rewrite forallb_app in H. apply andb_prop in H.
    destruct H as [Ha Hl]. rewrite forallb_forall in Ha, Hl.
    split; apply Forall_forall; auto. }
  split; [|split].
  - destruct (V TestPoses.upPose) as [Va Vl]; [vm_compute; reflexivity|].
    apply (full_body_classification TestPoses.upPose);
      [vm_compute; lia | exact Va | exact Vl | split; vm_compute; reflexivity].
  - destruct (V TestPoses.downPose) as [Va Vl]; [vm_compute; reflexivity|].
    apply (full_body_classification TestPoses.downPose);
      [vm_compute; lia | exact Va | exact Vl | split; vm_compute; reflexivity].
  - destruct (V TestPoses.armsOnlyPose) as [Va Vl]; [vm_compute; reflexivity|].
    apply (full_body_classification TestPoses.armsOnlyPose);
      [vm_compute; lia | exact Va | exact Vl | vm_compute; discriminate].
Defined.

(** The arms-up predicate reads the four arm landmarks only. *)
Lemma bothWristsAboveShoulders_ext (pose pose' : list Landmark) :
  Forall (fun i => landmarkAt pose' i = landmarkAt pose i) armLandmarks ->
  bothWristsAboveShoulders pose' = bothWristsAboveShoulders pose.
Proof.
  intro H. apply Forall_four in H. destruct H as (E1 & E2 & E3 & E4).
  unfold bothWristsAboveShoulders. rewrite E1, E2, E3, E4. reflexivity.
Qed.

(** C10. Upper-body-only fallback. For a pose of at least 33 entries whose
    four arm landmarks (shoulders, wrists) meet the visibility threshold
    while at least one hip or ankle landmark does not, the classifier returns
    Up exactly when both wrists are above their shoulders by more than the
    margin and Down otherwise; never Transition (nor Unknown). The feet are
    ignored: any other such pose with the same four arm landmarks is
    classified the same. A landmark does not meet the threshold when its
    visibility is below [MIN_VISIBILITY] ([meetsVisibility_below]). *)
Theorem upper_body_only_fallback
    (pose : list Landmark)
    (Hlen : 33 <= List.length pose)
    (Harms : Forall (fun i => meetsVisibility (landmarkAt pose i) = true)
               armLandmarks)
    (Hlegs : Exists (fun i => meetsVisibility (landmarkAt pose i) = false)
               legLandmarks) :
  detectJumpingJackPosition pose
    = (if bothWristsAboveShoulders pose then up else down)
  /\ (detectJumpingJackPosition pose = up <->
        bothWristsAboveShoulders pose = true)
  /\ (detectJumpingJackPosition pose = down <->
        bothWristsAboveShoulders pose = false)
  /\ detectJumpingJackPosition pose <> transition
  /\ detectJumpingJackPosition pose <> unknown
  /\ (forall pose' : list Landmark,
        33 <= List.length pose' ->
        Forall (fun i => landmarkAt pose' i = landmarkAt pose i) armLandmarks ->
        Exists (fun i => meetsVisibility (landmarkAt pose' i) = false)
          legLandmarks ->
        detectJumpingJackPosition pose' = detectJumpingJackPosition pose).
Proof.
  assert (Fallback : forall p,
            33 <= List.length p ->
            Forall (fun i => meetsVisibility (landmarkAt p i) = true)
              armLandmarks ->
            Exists (fun i => meetsVisibility (landmarkAt p i) = false)
              legLandmarks ->
            detectJumpingJackPosition p
              = (if bothWristsAboveShoulders p then up else down)).
  { intros p Hl Ha Hg. unfold detectJumpingJackPosition.
    rewrite (long_enough p Hl), (areArmsUp_available p Hl Ha),
      (areFeetApart_unavailable p Hl Hg). reflexivity. }
  split; [apply Fallback; assumption|].
  split; [|split; [|split; [|split]]].
  - rewrite (Fallback pose Hlen Harms Hlegs).
    destruct (bothWristsAboveShoulders pose); split; congruence.
  - rewrite (Fallback pose Hlen Harms Hlegs).
    destruct (bothWristsAboveShoulders pose); split; congruence.
  - rewrite (Fallback pose Hlen Harms Hlegs).
    destruct (bothWristsAboveShoulders pose); discriminate.
  - rewrite (Fallback pose Hlen Harms Hlegs).
    destruct (bothWristsAboveShoulders pose); discriminate.
  - intros pose' Hlen' Hsame Hlegs'.
    rewrite (Fallback pose Hlen Harms Hlegs).
    rewrite <- (bothWristsAboveShoulders_ext pose pose' Hsame).
    apply Fallback; [assumption| |assumption].
    apply Forall_four in Hsame, Harms. apply Forall_four.
    destruct Hsame as (E1 & E2 & E3 & E4). rewrite E1, E2, E3, E4. exact Harms.
Qed.

Lemma upper_body_only_fallback_witness :
  detectJumpingJackPosition
    (TestPoses.hide TestPoses.armsOnlyPose LANDMARKS.LEFT_ANKLE) = up
  /\ detectJumpingJackPosition
       (TestPoses.hide TestPoses.downPose LANDMARKS.RIGHT_HIP) = down.
Proof.
  assert (A : forall pose,
            forallb (fun i => meetsVisibility (landmarkAt pose i))
              armLandmarks = true ->
            Forall (fun i => meetsVisibility (landmarkAt pose i) = true)
              armLandmarks).
  { intros pose H. rewrite forallb_forall in H. apply Forall_forall. exact H. }
  assert (L : forall pose,
            existsb (fun i => negb (meetsVisibility (landmarkAt pose i)))
              legLandmarks = true ->
            Exists (fun i => meetsVisibility (landmarkAt pose i) = false)
              legLandmarks).
  { intros pose H. apply existsb_exists in H. destruct H as (i & Hi & Hv).
    apply Exists_exists. exists i. split; [exact Hi|].
    apply negb_true_iff. exact Hv. }
  split.
  - destruct (upper_body_only_fallback
                (TestPoses.hide TestPoses.armsOnlyPose LANDMARKS.LEFT_ANKLE))
      as (_ & [_ W] & _).
    + vm_compute. lia.
    + apply A. vm_compute. reflexivity.
    + apply L. vm_compute. reflexivity.
    + apply W. vm_compute. reflexivity.
  - destruct (upper_body_only_fallback
                (TestPoses.hide TestPoses.downPose LANDMARKS.RIGHT_HIP))
      as (_ & _ & [_ W] & _).
    + vm_compute. lia.
    + apply A. vm_compute. reflexivity.
    + apply L. vm_compute. reflexivity.
    + apply W. vm_compute. reflexivity.
Defined.

End ClassifierClaims.

(** ** The exercise session *)

Module SessionFacts.
Import String.
Import Exercises SpecTerms.
Local Open Scope string_scope.

(** One frame of a session whose detector is below the target: either the
    count stays below the target and nothing is emitted, or this frame
    counted the rep that reaches the target, the event carries the target and
    the detector is reset. *)
Lemma session_step (targetReps : nat) (now : Z)
    (pose : option (list Landmark)) (s : WebcamFeed.Session) :
  getReps (WebcamFeed.detectorRef s) < targetReps ->
  (getReps (detectorAfter now pose s) < targetReps /\
   WebcamFeed.detectorRef (fst (WebcamFeed.processFrame targetReps now pose s))
     = detectorAfter now pose s /\
   snd (WebcamFeed.processFrame targetReps now pose s) = None)
  \/
  (getReps (detectorAfter now pose s) = targetReps /\
   getReps (detectorAfter now pose s) = S (getReps (WebcamFeed.detectorRef s)) /\
   fst (WebcamFeed.processFrame targetReps now pose s)
     = WebcamFeed.mkSession createJumpingJackDetector 0 /\
   snd (WebcamFeed.processFrame targetReps now pose s)
     = Some (WebcamFeed.mkCompletionEvent "jumping_jacks" targetReps)).
Proof.
  intro Inv. destruct pose as [p|]; simpl; [|left; auto].
  unfold getReps in *.
  destruct (DetectorFacts.processFrame_reps now p (WebcamFeed.detectorRef s))
    as [E|E]; rewrite E.
  - rewrite Nat.ltb_irrefl. simpl. left. auto.
  - replace (Nat.ltb _ _) with true by (symmetry; apply Nat.ltb_lt; lia).
    destruct (Nat.leb targetReps (S (reps (WebcamFeed.detectorRef s)))) eqn:T.
    + apply Nat.leb_le in T. right. simpl.
      assert (S (reps (WebcamFeed.detectorRef s)) = targetReps) as -> by lia.
      auto.
    + apply Nat.leb_gt in T. left. simpl. auto.
Qed.

(** Between frames the detector of a session is below the target. *)
Lemma below_target (targetReps : nat)
    (frames : list (Z * option (list Landmark))) (s : WebcamFeed.Session) :
  getReps (WebcamFeed.detectorRef s) < targetReps ->
  getReps (WebcamFeed.detectorRef
             (fst (WebcamFeed.processFrames targetReps frames s)))
  < targetReps.
Proof.
  revert s. induction frames as [|[now pose] rest IH]; intros s Inv; simpl.
  - exact Inv.
  - destruct (WebcamFeed.processFrame targetReps now pose s) as [s1 ev] eqn:E1.
    specialize (IH s1).
    destruct (WebcamFeed.processFrames targetReps rest s1) as [s2 evs].
    simpl in *. apply IH.
    destruct (session_step targetReps now pose s Inv) as [(L & D & _)|(_ & _ & F & _)];
      rewrite E1 in *; simpl in *.
    + rewrite D. exact L.
    + rewrite F. simpl. unfold getReps in Inv. unfold getReps. simpl. lia.
Qed.

(** Every event of a stream carries the target, and the counted reps are the
    target times the number of events, plus what the detector shows. *)
Lemma one_event_per_target (targetReps : nat)
    (frames : list (Z * option (list Landmark))) (s : WebcamFeed.Session) :
  getReps (WebcamFeed.detectorRef s) < targetReps ->
  let out := WebcamFeed.processFrames targetReps frames s in
  Forall (fun e => e = WebcamFeed.mkCompletionEvent "jumping_jacks" targetReps)
    (WebcamFeed.emitted (snd out))
  /\ getReps (WebcamFeed.detectorRef s) + countedReps targetReps frames s
     = targetReps * List.length (WebcamFeed.emitted (snd out))
       + getReps (WebcamFeed.detectorRef (fst out)).
Proof.
  revert s. induction frames as [|[now pose] rest IH]; intros s Inv; simpl.
  - split; [constructor | lia].
  - destruct (session_step targetReps now pose s Inv)
      as [(L & D & N)|(T & I & F & V)];
      destruct (WebcamFeed.processFrame targetReps now pose s) as [s1 ev] eqn:E1;
      simpl in *; subst ev.
    + assert (Inv1 : getReps (WebcamFeed.detectorRef s1) < targetReps)
        by (rewrite D; exact L).
      specialize (IH s1 Inv1). simpl in IH.
      destruct (WebcamFeed.processFrames targetReps rest s1) as [s2 evs].
      simpl in *. destruct IH as [IHa IHb]. split; [exact IHa|].
      rewrite <- IHb, D.
      destruct (DetectorFacts.processFrame_reps_option now pose s) as [R|R];
        rewrite R.
      * rewrite Nat.ltb_irrefl. lia.
      * replace (Nat.ltb _ _) with true by (symmetry; apply Nat.ltb_lt; lia).
        lia.
    + assert (Inv1 : getReps (WebcamFeed.detectorRef s1) < targetReps)
        by (rewrite F; unfold getReps in *; simpl; lia).
      specialize (IH s1 Inv1). simpl in IH.
      destruct (WebcamFeed.processFrames targetReps rest s1) as [s2 evs].
      simpl in *. destruct IH as [IHa IHb]. split; [constructor; auto|].
      rewrite I.
      replace (Nat.ltb _ _) with true by (symmetry; apply Nat.ltb_lt; lia).
      subst s1. simpl in IHb. rewrite Nat.mul_succ_r. lia.
Qed.

(** The count of a detector left to itself never goes down. *)
Lemma detectorOver_mono (frames : list (Z * option (list Landmark)))
    (d : Detector) :
  getReps d <= getReps (detectorOver frames d).
Proof.
  unfold getReps. revert d.
  induction frames as [|[now [p|]] rest IH]; intro d; simpl; [lia | | apply IH].
  specialize (IH (processFrame now p d)).
  destruct (DetectorFacts.processFrame_reps now p d); lia.
Qed.

(** As long as the detector left to itself stays below the target, the
    session's detector is that very detector, the store's counter is its
    count, and no frame emits an event. *)
Lemma session_follows_detector (targetReps : nat)
    (frames : list (Z * option (list Landmark))) (s : WebcamFeed.Session) :
  WebcamFeed.currentReps s = getReps (WebcamFeed.detectorRef s) ->
  getReps (detectorOver frames (WebcamFeed.detectorRef s)) < targetReps ->
  WebcamFeed.processFrames targetReps frames s
  = (WebcamFeed.mkSession
       (detectorOver frames (WebcamFeed.detectorRef s))
       (getReps (detectorOver frames (WebcamFeed.detectorRef s))),
     map (fun _ => None) frames).
Proof.
  unfold getReps. revert s.
  induction frames as [|[now [p|]] rest IH]; intros [d c] Hc Hb;
    cbn [WebcamFeed.detectorRef WebcamFeed.currentReps] in *; subst c.
  - reflexivity.
  - cbn [detectorOver] in *. cbn [WebcamFeed.processFrames map].
    pose proof (detectorOver_mono rest (processFrame now p d)) as M.
    unfold getReps in M.
    unfold WebcamFeed.processFrame, getReps.
    cbn [WebcamFeed.detectorRef WebcamFeed.currentReps].
    destruct (DetectorFacts.processFrame_reps now p d) as [E|E].
    + rewrite E, Nat.ltb_irrefl. cbv beta iota zeta.
      rewrite (IH (WebcamFeed.mkSession (processFrame now p d) (reps d)));
        [reflexivity | simpl; congruence | exact Hb].
    + replace (Nat.ltb (reps d) (reps (processFrame now p d))) with true
        by (symmetry; apply Nat.ltb_lt; lia).
      replace (Nat.leb targetReps (reps (processFrame now p d))) with false
        by (symmetry; apply Nat.leb_gt; lia).
      cbv beta iota zeta.
      rewrite (IH (WebcamFeed.mkSession (processFrame now p d) (S (reps d))));
        [reflexivity | simpl; congruence | exact Hb].
  - cbn [detectorOver] in *. cbn [WebcamFeed.processFrames map].
    cbn [WebcamFeed.processFrame].
    rewrite (IH (WebcamFeed.mkSession d (reps d)));
      [reflexivity | reflexivity | exact Hb].
Qed.

(** A stream in two parts: the second part starts from the session the
    first part leaves, and the traces follow each other. *)
Lemma processFrames_app (targetReps : nat)
    (first second : list (Z * option (list Landmark)))
    (s : WebcamFeed.Session) :
  WebcamFeed.processFrames targetReps (first ++ second)%list s
  = (fst (WebcamFeed.processFrames targetReps second
            (fst (WebcamFeed.processFrames targetReps first s))),
     (snd (WebcamFeed.processFrames targetReps first s)
      ++ snd (WebcamFeed.processFrames targetReps second
                (fst (WebcamFeed.processFrames targetReps first s))))%list).
Proof.
  revert s. induction first as [|[now pose] rest IH]; intro s.
  - cbn [app WebcamFeed.processFrames fst snd].
    destruct (WebcamFeed.processFrames targetReps second s); reflexivity.
  - cbn [app WebcamFeed.processFrames].
    destruct (WebcamFeed.processFrame targetReps now pose s) as [s1 ev].
    rewrite (IH s1).
    destruct (WebcamFeed.processFrames targetReps rest s1) as [s2 evs].
    reflexivity.
Qed.

End SessionFacts.

Module SessionClaims.
Import String.
Import Exercises SpecTerms SessionFacts.

(** Twenty jumping jacks in front of the camera, after a first Down frame:
    one event, with 20 reps, on the frame of the twentieth rep, and a
    detector back at zero. One jack more or less changes nothing to that. *)
Example twenty_jumping_jacks :
  let stream n := (1000%Z, Some TestPoses.downPose)
                  :: TestPoses.jumpingJacks n 1500 in
  WebcamFeed.emitted
    (snd (WebcamFeed.processFrames 20 (stream 19) WebcamFeed.initial)) = []
  /\ WebcamFeed.emitted
       (snd (WebcamFeed.processFrames 20 (stream 20) WebcamFeed.initial))
     = [twentyJumpingJacks]
  /\ getReps (WebcamFeed.detectorRef
                (fst (WebcamFeed.processFrames 20 (stream 20)
                        WebcamFeed.initial))) = 0
  /\ WebcamFeed.emitted
       (snd (WebcamFeed.processFrames 20 (stream 21) WebcamFeed.initial))
     = [twentyJumpingJacks]
  /\ WebcamFeed.emitted
       (snd (WebcamFeed.processFrames 20 (stream 40) WebcamFeed.initial))
     = [twentyJumpingJacks; twentyJumpingJacks].
Proof. vm_compute. repeat split. Qed.

(** The session with target 20, frame by frame: after any stream of frames
    from its start and on any further frame. Between frames the detector
    shows fewer than 20 reps. The frame emits an event exactly when the count
    the detector reaches on it is 20 or more; the event is
    [('jumping_jacks', 20)], the count is then exactly 20, the detector is
    reset at once, and on the next frame, whatever it is, the count is 0 and
    no event is emitted. A frame that leaves the count below 20 emits
    nothing. Over the whole stream every event is [('jumping_jacks', 20)]
    and there is one event per 20 counted reps. *)
Lemma session_frame_by_frame
    (history : list (Z * option (list Landmark)))
    (now : Z) (pose : option (list Landmark)) :
  let run := WebcamFeed.processFrames 20 history WebcamFeed.initial in
  let s := fst run in
  let out := WebcamFeed.processFrame 20 now pose s in
  getReps (WebcamFeed.detectorRef s) < 20
  /\ (20 <= getReps (detectorAfter now pose s) <->
      snd out = Some twentyJumpingJacks)
  /\ (getReps (detectorAfter now pose s) < 20 <-> snd out = None)
  /\ (snd out <> None ->
      getReps (detectorAfter now pose s) = 20 /\
      WebcamFeed.detectorRef (fst out) = createJumpingJackDetector /\
      getReps (WebcamFeed.detectorRef (fst out)) = 0 /\
      forall (now2 : Z) (pose2 : option (list Landmark)),
        getReps (detectorAfter now2 pose2 (fst out)) = 0 /\
        snd (WebcamFeed.processFrame 20 now2 pose2 (fst out)) = None)
  /\ Forall (fun e => e = twentyJumpingJacks) (WebcamFeed.emitted (snd run))
  /\ countedReps 20 history WebcamFeed.initial
     = 20 * List.length (WebcamFeed.emitted (snd run))
       + getReps (WebcamFeed.detectorRef s).
Proof.
  intros run s out.
  assert (Inv0 : getReps (WebcamFeed.detectorRef WebcamFeed.initial) < 20)
    by (simpl; lia).
  assert (Inv : getReps (WebcamFeed.detectorRef s) < 20)
    by (apply below_target; exact Inv0).
  assert (Fresh : forall now2 pose2,
            getReps (detectorAfter now2 pose2
                       (WebcamFeed.mkSession createJumpingJackDetector 0)) = 0).
  { intros now2 [p2|]; simpl; [|reflexivity].
    destruct (DetectorFacts.processFrame_reps now2 p2 createJumpingJackDetector)
      as [E|E]; [exact E|].
    apply DetectorFacts.rep_counted_iff in E. destruct E as (_ & _ & E).
    discriminate E. }
  split; [exact Inv|].
  destruct (session_step 20 now pose s Inv) as [(L & D & N)|(T & I & F & V)];
    fold out in D, N || fold out in F, V.
  - rewrite N.
    split; [split; [lia | discriminate]|].
    split; [split; [reflexivity | intros _; exact L]|].
    split; [congruence|].
    apply (one_event_per_target 20 history WebcamFeed.initial Inv0).
  - rewrite V, F.
    split; [split; [reflexivity | lia]|].
    split; [split; [lia | discriminate]|].
    split.
    + intros _. repeat split; auto.
      destruct (session_step 20 now2 pose2
                  (WebcamFeed.mkSession createJumpingJackDetector 0))
        as [(_ & _ & N2)|(T2 & _)]; [simpl; lia | exact N2 |].
      rewrite Fresh in T2. discriminate T2.
    + apply (one_event_per_target 20 history WebcamFeed.initial Inv0).
Qed.

(** C3. The session with target 20, against the detector left to itself.
    Take any stream of frames over which the detector, left to itself from
    its fresh state, stays below 20 reps, and a next frame on which it
    reaches 20 or more. Up to that frame the session's detector is that very
    detector (the session keeps its progress, and the store's counter shows
    its count) and no event is emitted. On that frame the count is exactly
    20, exactly one event is emitted, [('jumping_jacks', 20)], and the
    detector is reset at once: the session is the initial one again, so on
    the next frame the count is 0 and nothing is emitted, and whatever frames
    follow are processed as by a session just started; the trace of the whole
    stream is no event up to the crossing, the one event, then the trace of
    what follows, whose next event takes a next crossing. And frame by frame,
    after any stream whatever: the detector shows fewer than 20 reps between
    frames, a frame emits an event exactly when the count reaches 20, and
    there is one event per 20 counted reps. *)
Theorem session_completion_once_per_target
    (frames : list (Z * option (list Landmark)))
    (now : Z) (pose : list Landmark)
    (more : list (Z * option (list Landmark)))
    (Hbelow : getReps (detectorOver frames createJumpingJackDetector) < 20)
    (Hcross : 20 <= getReps (processFrame now pose
                               (detectorOver frames createJumpingJackDetector))) :
  let d := detectorOver frames createJumpingJackDetector in
  WebcamFeed.processFrames 20 frames WebcamFeed.initial
    = (WebcamFeed.mkSession d (getReps d), map (fun _ => None) frames)
  /\ getReps (processFrame now pose d) = 20
  /\ WebcamFeed.processFrame 20 now (Some pose)
       (WebcamFeed.mkSession d (getReps d))
     = (WebcamFeed.initial, Some twentyJumpingJacks)
  /\ getReps (WebcamFeed.detectorRef WebcamFeed.initial) = 0
  /\ (forall (now2 : Z) (pose2 : option (list Landmark)),
        getReps (detectorAfter now2 pose2 WebcamFeed.initial) = 0 /\
        snd (WebcamFeed.processFrame 20 now2 pose2 WebcamFeed.initial) = None)
  /\ WebcamFeed.processFrames 20 (frames ++ (now, Some pose) :: more)%list
       WebcamFeed.initial
     = (fst (WebcamFeed.processFrames 20 more WebcamFeed.initial),
        (map (fun _ => None) frames
         ++ Some twentyJumpingJacks
            :: snd (WebcamFeed.processFrames 20 more WebcamFeed.initial))%list)
  /\ (forall (history : list (Z * option (list Landmark)))
             (now1 : Z) (pose1 : option (list Landmark)),
        let run := WebcamFeed.processFrames 20 history WebcamFeed.initial in
        let s := fst run in
        let out := WebcamFeed.processFrame 20 now1 pose1 s in
        getReps (WebcamFeed.detectorRef s) < 20
        /\ (20 <= getReps (detectorAfter now1 pose1 s) <->
            snd out = Some twentyJumpingJacks)
        /\ (getReps (detectorAfter now1 pose1 s) < 20 <-> snd out = None)
        /\ (snd out <> None ->
            getReps (detectorAfter now1 pose1 s) = 20 /\
            WebcamFeed.detectorRef (fst out) = createJumpingJackDetector /\
            getReps (WebcamFeed.detectorRef (fst out)) = 0 /\
            forall (now2 : Z) (pose2 : option (list Landmark)),
              getReps (detectorAfter now2 pose2 (fst out)) = 0 /\
              snd (WebcamFeed.processFrame 20 now2 pose2 (fst out)) = None)
        /\ Forall (fun e => e = twentyJumpingJacks)
             (WebcamFeed.emitted (snd run))
        /\ countedReps 20 history WebcamFeed.initial
           = 20 * List.length (WebcamFeed.emitted (snd run))
             + getReps (WebcamFeed.detectorRef s)).
Proof.
  intro d.
  assert (Before : WebcamFeed.processFrames 20 frames WebcamFeed.initial
                   = (WebcamFeed.mkSession d (getReps d),
                      map (fun _ => None) frames)).
  { apply (session_follows_detector 20 frames WebcamFeed.initial);
      [reflexivity | exact Hbelow]. }
  assert (Twenty : getReps (processFrame now pose d) = 20).
  { unfold getReps in *. fold d in Hbelow, Hcross.
    destruct (DetectorFacts.processFrame_reps now pose d); lia. }
  assert (Cross : WebcamFeed.processFrame 20 now (Some pose)
                    (WebcamFeed.mkSession d (getReps d))
                  = (WebcamFeed.initial, Some twentyJumpingJacks)).
  { unfold WebcamFeed.processFrame.
    cbn [WebcamFeed.detectorRef WebcamFeed.currentReps].
    rewrite Twenty.
    replace (Nat.ltb (getReps d) 20) with true
      by (symmetry; apply Nat.ltb_lt; exact Hbelow).
    reflexivity. }
  assert (Next : forall (now2 : Z) (pose2 : option (list Landmark)),
            getReps (detectorAfter now2 pose2 WebcamFeed.initial) = 0 /\
            snd (WebcamFeed.processFrame 20 now2 pose2 WebcamFeed.initial)
            = None).
  { intros now2 pose2.
    assert (Z0 : getReps (detectorAfter now2 pose2 WebcamFeed.initial) = 0).
    { destruct pose2 as [p2|]; simpl; [|reflexivity].
      destruct (DetectorFacts.processFrame_reps now2 p2
                  createJumpingJackDetector) as [E|E]; [exact E|].
      apply DetectorFacts.rep_counted_iff in E. destruct E as (_ & _ & E).
      discriminate E. }
    split; [exact Z0|].
    destruct (session_step 20 now2 pose2 WebcamFeed.initial)
      as [(_ & _ & N2)|(T2 & _)]; [simpl; lia | exact N2 |].
    rewrite Z0 in T2. discriminate T2. }
  split; [exact Before|]. split; [exact Twenty|]. split; [exact Cross|].
  split; [reflexivity|]. split; [exact Next|]. split.
  - rewrite processFrames_app, Before. cbn [fst snd].
    cbn [WebcamFeed.processFrames]. rewrite Cross.
    destruct (WebcamFeed.processFrames 20 more WebcamFeed.initial) as [s2 evs].
    reflexivity.
  - intros history now1 pose1. apply session_frame_by_frame.
Qed.

Lemma session_completion_once_per_target_witness :
  let frames := ((1000%Z, Some TestPoses.downPose)
                 :: TestPoses.jumpingJacks 19 1500
                 ++ [(20500%Z, Some TestPoses.upPose)])%list in
  let more := TestPoses.jumpingJacks 3 21500 in
  getReps (detectorOver frames createJumpingJackDetector) = 19
  /\ WebcamFeed.processFrames 20
       (frames ++ (21000%Z, Some TestPoses.downPose) :: more)%list
       WebcamFeed.initial
     = (fst (WebcamFeed.processFrames 20 more WebcamFeed.initial),
        (map (fun _ => None) frames
         ++ Some twentyJumpingJacks
            :: snd (WebcamFeed.processFrames 20 more WebcamFeed.initial))%list)
  /\ getReps (WebcamFeed.detectorRef
                (fst (WebcamFeed.processFrames 20 more WebcamFeed.initial)))
     = 3.
Proof.
  intros frames more.
  split; [vm_compute; reflexivity|].
  split; [|vm_compute; reflexivity].
  refine (proj1 (proj2 (proj2 (proj2 (proj2 (proj2
            (session_completion_once_per_target frames 21000
               TestPoses.downPose more _ _))))))).
  - vm_compute. lia.
  - vm_compute. lia.
Defined.

End SessionClaims.

(** ** The ledger *)

Module LedgerFacts.
Import Ledger SpecTerms.
Local Open Scope Z_scope.

Lemma credit_consistent now amount l :
  consistent l -> consistent (fst (credit now amount l)).
Proof.
  unfold consistent, credit. intro H.
  destruct (amount <=? 0) eqn:A; simpl; [exact H|].
  apply Z.leb_gt in A. lia.
Qed.

Lemma spend_consistent now amount l :
  consistent l -> consistent (fst (spend now amount l)).
Proof.
  unfold consistent, spend, available. intro H.
  destruct (amount <=? 0) eqn:A; simpl; [exact H|].
  apply Z.leb_gt in A.
  destruct (amount <=? earned l - spent l) eqn:B; simpl; [|exact H].
  apply Z.leb_le in B. lia.
Qed.

Lemma step_consistent l op : consistent l -> consistent (step l op).
Proof.
  destruct op as [now amount|now amount]; simpl;
    [apply credit_consistent | apply spend_consistent].
Qed.

Lemma run_consistent ops l : consistent l -> consistent (run ops l).
Proof.
  unfold run. revert l.
  induction ops as [|op rest IH]; intros l H; simpl; [exact H|].
  apply IH, step_consistent, H.
Qed.

(** Calls of [spend(1)] that are made one after the other: as many succeed as
    the balance allows, the others fail with InsufficientBalance. (What the
    specification asks of concurrent calls is that they behave like such a
    sequence; that part is about the coordinator and is not stated here.) *)
Lemma spendOnes_in_sequence (nows : list Z) (l : Ledger) :
  0 <= available l ->
  let out := spendOnes nows l in
  let n := Z.of_nat (List.length nows) in
  Z.of_nat (List.length (filter isSuccess (snd out))) = Z.min (available l) n
  /\ Z.of_nat (List.length (filter isInsufficientBalance (snd out)))
     = n - Z.min (available l) n
  /\ available (fst out) = available l - Z.min (available l) n.
Proof.
  revert l. induction nows as [|now rest IH]; intros l H.
  - simpl. lia.
  - cbn [spendOnes]. unfold spend. cbn [Z.leb Z.compare].
    destruct (1 <=? available l) eqn:A.
    + apply Z.leb_le in A.
      set (l1 := {| earned := earned l; spent := spent l + 1;
                    history := history l ++ [mkEvent kind_spend 1 now] |}).
      assert (A1 : available l1 = available l - 1) by (unfold available; simpl; lia).
      specialize (IH l1). rewrite A1 in IH.
      destruct (spendOnes rest l1) as [l2 rs]. cbn [fst snd] in *.
      cbn [filter isSuccess isInsufficientBalance List.length].
      rewrite Nat2Z.inj_succ. lia.
    + apply Z.leb_gt in A.
      set (l1 := {| earned := earned l; spent := spent l;
                    history := history l ++ [mkEvent kind_spend_rejected 1 now] |}).
      assert (A1 : available l1 = available l) by reflexivity.
      specialize (IH l1). rewrite A1 in IH.
      destruct (spendOnes rest l1) as [l2 rs]. cbn [fst snd] in *.
      cbn [filter isSuccess isInsufficientBalance List.length].
      rewrite Nat2Z.inj_succ. lia.
Qed.

End LedgerFacts.

Module LedgerClaims.
Import Ledger SpecTerms LedgerFacts.
Local Open Scope Z_scope.

(** The scenario of the specification: credit(1) makes 1 available; spend(1)
    succeeds and leaves 0; a second spend(1) fails with InsufficientBalance
    and 0 is still available. *)
Example credit_spend_spend :
  let l1 := fst (credit 10 1 initial) in
  let l2 := fst (spend 20 1 l1) in
  let l3 := fst (spend 30 1 l2) in
  snd (credit 10 1 initial) = inr 1
  /\ snd (spend 20 1 l1) = inr 0
  /\ snd (spend 30 1 l2) = inl (InsufficientBalance 0)
  /\ snapshot l3 = (0, 1, 1)
  /\ List.map kind (history l3) = [kind_earn; kind_spend; kind_spend_rejected].
Proof. vm_compute. repeat split. Qed.

(** C4. After every prefix of every finite sequence of credit and spend
    operations on the initial ledger (earned = spent = 0), the available
    balance the snapshot reports is earned minus spent and is at least zero
    (both counters being non-negative as well); and there a spend of more than
    the available balance fails with InsufficientBalance, carrying the
    available balance, and leaves both counters as they were. *)
Theorem ledger_available_never_negative (ops : list Op) (n : nat) :
  let l := run (firstn n ops) initial in
  fst (fst (snapshot l)) = earned l - spent l
  /\ available l = earned l - spent l
  /\ 0 <= available l
  /\ 0 <= earned l
  /\ 0 <= spent l
  /\ (forall now amount : Z,
        amount > available l ->
        snd (spend now amount l) = inl (InsufficientBalance (available l))
        /\ earned (fst (spend now amount l)) = earned l
        /\ spent (fst (spend now amount l)) = spent l
        /\ available (fst (spend now amount l)) = available l).
Proof.
  intro l.
  assert (C : consistent l).
  { apply run_consistent. unfold consistent. simpl. lia. }
  unfold consistent in C. unfold available. simpl.
  repeat (split; [lia || reflexivity|]).
  intros now amount H. unfold spend, available.
  replace (amount <=? 0) with false by (symmetry; apply Z.leb_gt; lia).
  replace (amount <=? earned l - spent l) with false
    by (symmetry; apply Z.leb_gt; lia).
  simpl. repeat split.
Qed.

End LedgerClaims.

(** ** More on the rep-counting state machine *)

Module DetectorMore.
Import Exercises SpecTerms MoreTerms DetectorFacts.

(** A frame is either ignored or an accepted change, whose effect
    [processFrame_change] gives. *)
Lemma processFrame_cases now pose d :
  processFrame now pose d = d \/
  (detectJumpingJackPosition pose <> unknown /\
   detectJumpingJackPosition pose <> currentState d /\
   (lastStateChangeTime d + THRESHOLDS.STATE_CHANGE_DEBOUNCE_MS <= now)%Z /\
   processFrame now pose d =
     match detectJumpingJackPosition pose with
     | up => mkDetector (reps d) up true now
     | down =>
         if hasReachedUp d then mkDetector (S (reps d)) down false now
         else mkDetector (reps d) down false now
     | s => mkDetector (reps d) s (hasReachedUp d) now
     end).
Proof.
  destruct (JumpingJackState_eqb (detectJumpingJackPosition pose) unknown) eqn:K.
  { left. apply processFrame_unknown, JumpingJackState_eqb_eq, K. }
  destruct (JumpingJackState_eqb (detectJumpingJackPosition pose)
              (currentState d)) eqn:C.
  { left. apply processFrame_same, JumpingJackState_eqb_eq, C. }
  destruct (Z_lt_le_dec (now - lastStateChangeTime d)
              THRESHOLDS.STATE_CHANGE_DEBOUNCE_MS) as [L|L].
  { left. apply processFrame_too_soon, L. }
  right. apply JumpingJackState_eqb_neq in K, C.
  repeat split; auto; [lia|]. apply processFrame_change; auto. lia.
Qed.

(** The coherence of a detector: the flag is up in state [up], down in
    state [down], and a detector in state [unknown] is a fresh one. *)
Lemma coherent_step now pose d :
  ((currentState d = up -> hasReachedUp d = true) /\
   (currentState d = down -> hasReachedUp d = false) /\
   (currentState d = unknown -> d = createJumpingJackDetector)) ->
  let d' := processFrame now pose d in
  (currentState d' = up -> hasReachedUp d' = true) /\
  (currentState d' = down -> hasReachedUp d' = false) /\
  (currentState d' = unknown -> d' = createJumpingJackDetector).
Proof.
  intros H d'. subst d'.
  destruct (processFrame_cases now pose d) as [E|(Hk & _ & _ & E)];
    rewrite E; [exact H|].
  destruct (detectJumpingJackPosition pose); simpl;
    try (destruct (hasReachedUp d)); simpl;
    repeat split; intros; congruence.
Qed.

(** X1. Whatever frames and resets a fresh detector has gone through: in
    state [up] the reached-up flag is set, in state [down] it is clear, and
    a detector that reports [unknown] has accepted nothing since it was
    created or reset (no reps, no flag, time 0). *)
Theorem detector_state_and_flag_coherent (ops : list DetectorOp) :
  let d := applyOps ops createJumpingJackDetector in
  (getState d = up -> hasReachedUp d = true)
  /\ (getState d = down -> hasReachedUp d = false)
  /\ (getState d = unknown -> d = createJumpingJackDetector).
Proof.
  unfold applyOps, getState.
  assert (G : forall d0,
            ((currentState d0 = up -> hasReachedUp d0 = true) /\
             (currentState d0 = down -> hasReachedUp d0 = false) /\
             (currentState d0 = unknown -> d0 = createJumpingJackDetector)) ->
            let d := fold_left applyOp ops d0 in
            (currentState d = up -> hasReachedUp d = true) /\
            (currentState d = down -> hasReachedUp d = false) /\
            (currentState d = unknown -> d = createJumpingJackDetector)).
  { induction ops as [|op rest IH]; intros d0 H; simpl; [exact H|].
    apply IH. destruct op as [now pose|]; simpl.
    - apply coherent_step, H.
    - repeat split; intros; (discriminate || reflexivity). }
  apply G. simpl. repeat split; intros; (discriminate || reflexivity).
Qed.

(** Counting the frames classified [s], one frame more. *)
Lemma classifiedAs_cons s now pose rest :
  classifiedAs s ((now, pose) :: rest) =
  (if JumpingJackState_eqb (detectJumpingJackPosition pose) s then 1 else 0)
  + classifiedAs s rest.
Proof.
  unfold classifiedAs. simpl.
  destruct (JumpingJackState_eqb _ s); reflexivity.
Qed.

(** X2. Every counted rep uses up an Up frame and a Down frame of its own:
    over any frame sequence a detector counts at most as many reps as there
    are frames classified Up (one less while the flag it started with is
    still not spent), and at most as many as there are frames classified
    Down. From a fresh detector the count is bounded by both numbers. *)
Theorem reps_bounded_by_up_and_down_frames
    (frames : list (Z * list Landmark)) (d : Detector) :
  let d' := processFrames frames d in
  getReps d' + (if hasReachedUp d' then 1 else 0)
    <= getReps d + (if hasReachedUp d then 1 else 0) + classifiedAs up frames
  /\ getReps d' <= getReps d + classifiedAs down frames
  /\ getReps (processFrames frames createJumpingJackDetector)
     <= Nat.min (classifiedAs up frames) (classifiedAs down frames).
Proof.
  unfold getReps.
  assert (G : forall d0,
            reps (processFrames frames d0)
            + (if hasReachedUp (processFrames frames d0) then 1 else 0)
            <= reps d0 + (if hasReachedUp d0 then 1 else 0)
               + classifiedAs up frames
            /\ reps (processFrames frames d0)
               <= reps d0 + classifiedAs down frames).
  { induction frames as [|[now pose] rest IH]; intro d0.
    - unfold classifiedAs. simpl. lia.
    - simpl processFrames. rewrite !classifiedAs_cons.
      destruct (IH (processFrame now pose d0)) as [IHu IHd].
      assert (S1 : reps (processFrame now pose d0)
                   + (if hasReachedUp (processFrame now pose d0) then 1 else 0)
                   <= reps d0 + (if hasReachedUp d0 then 1 else 0)
                      + (if JumpingJackState_eqb
                              (detectJumpingJackPosition pose) up
                         then 1 else 0)
                   /\ reps (processFrame now pose d0)
                      <= reps d0
                         + (if JumpingJackState_eqb
                                 (detectJumpingJackPosition pose) down
                            then 1 else 0)).
      { destruct (processFrame_cases now pose d0) as [E|(_ & _ & _ & E)];
          rewrite E; [lia|].
        destruct (detectJumpingJackPosition pose); simpl;
          destruct (hasReachedUp d0); simpl; lia. }
      lia. }
  cbv zeta. destruct (G d) as [Gu Gd].
  split; [exact Gu|]. split; [exact Gd|].
  destruct (G createJumpingJackDetector) as [Cu Cd]. simpl in Cu, Cd. lia.
Qed.

Lemma paced_step a b now pose d :
  (a <= now <= b)%Z -> paced a b d -> paced a b (processFrame now pose d).
Proof.
  intros Ha P.
  destruct (processFrame_cases now pose d) as [E|(_ & _ & Ht & E)];
    rewrite E; [exact P|].
  unfold THRESHOLDS.STATE_CHANGE_DEBOUNCE_MS in Ht. right.
  destruct P as [P|[P L]].
  - subst d. cbn [createJumpingJackDetector lastStateChangeTime] in Ht.
    destruct (detectJumpingJackPosition pose);
      cbn [createJumpingJackDetector reps hasReachedUp lastStateChangeTime];
      lia.
  - destruct (detectJumpingJackPosition pose);
      destruct (hasReachedUp d);
      cbn [reps hasReachedUp lastStateChangeTime]; lia.
Qed.

Lemma paced_frames a b frames d :
  Forall (fun f => (a <= fst f <= b)%Z) frames ->
  paced a b d -> paced a b (processFrames frames d).
Proof.
  revert d. induction frames as [|[now pose] rest IH]; intros d HF P.
  - exact P.
  - inversion_clear HF as [|? ? Hhead Hrest]. simpl in Hhead. simpl.
    apply IH; [exact Hrest | apply paced_step; [lia | exact P]].
Qed.

Lemma paced_bound a b d :
  paced a b d -> (1000 * Z.of_nat (reps d) <= Z.max 0 (b - a + 500))%Z.
Proof.
  intros [P|[P L]].
  - rewrite P. simpl. lia.
  - destruct (hasReachedUp d); lia.
Qed.

(** X3. The debounce bounds the pace of counting. If every frame of a
    sequence is processed at a time between [a] and [b], a fresh detector
    counts at most one rep per second of that span, rounded up by half a
    second: [1000 * reps <= b - a + 500], whatever the poses and whatever
    their order in time. *)
Theorem at_most_one_rep_per_second
    (a b : Z) (frames : list (Z * list Landmark))
    (Hspan : Forall (fun f => (a <= fst f <= b)%Z) frames) :
  (1000 * Z.of_nat (getReps (processFrames frames createJumpingJackDetector))
   <= Z.max 0 (b - a + 500))%Z.
Proof.
  unfold getReps. apply paced_bound.
  apply paced_frames; [exact Hspan | left; reflexivity].
Qed.

Lemma at_most_one_rep_per_second_witness :
  (1000 * Z.of_nat
            (getReps
               (processFrames
                  [(1000, TestPoses.upPose); (1500, TestPoses.downPose)]
                  createJumpingJackDetector))
   <= Z.max 0 (1500 - 1000 + 500))%Z
  /\ getReps
       (processFrames
          [(1000%Z, TestPoses.upPose); (1500%Z, TestPoses.downPose)]
          createJumpingJackDetector) = 1.
Proof.
  split; [|vm_compute; reflexivity].
  apply (at_most_one_rep_per_second 1000 1500
           [(1000%Z, TestPoses.upPose); (1500%Z, TestPoses.downPose)]).
  repeat constructor; simpl; lia.
Defined.

(** X4. Delivering a frame twice is harmless. Processing the same pose
    again at the same time changes nothing; and once a frame has been
    accepted, processing its pose again changes nothing at any time. *)
Theorem repeated_frame_changes_nothing
    (now : Z) (pose : list Landmark) (d : Detector) :
  processFrame now pose (processFrame now pose d) = processFrame now pose d
  /\ (forall later : Z,
        accepted now pose d ->
        processFrame later pose (processFrame now pose d)
        = processFrame now pose d).
Proof.
  assert (A : forall later, accepted now pose d ->
            processFrame later pose (processFrame now pose d)
            = processFrame now pose d).
  { intros later Acc. apply processFrame_same.
    apply accepted_iff in Acc. destruct Acc as (Hk & Hc & Ht).
    rewrite (processFrame_change now pose d Hk Hc Ht).
    destruct (detectJumpingJackPosition pose); try reflexivity.
    destruct (hasReachedUp d); reflexivity. }
  split; [|exact A].
  destruct (processFrame_cases now pose d) as [E|(Hk & Hc & Ht & _)].
  - rewrite E. exact E.
  - apply A. apply accepted_iff. auto.
Qed.

(** X5. A frame classified Transition never counts a rep and never touches
    the reached-up flag. It is accepted, becoming the reported state and
    restarting the debounce interval, exactly when the current state is not
    Transition and the interval has elapsed. *)
Theorem transition_frame_keeps_count_and_flag
    (now : Z) (pose : list Landmark) (d : Detector)
    (H : detectJumpingJackPosition pose = transition) :
  getReps (processFrame now pose d) = getReps d
  /\ hasReachedUp (processFrame now pose d) = hasReachedUp d
  /\ (accepted now pose d <->
      getState d <> transition /\
      (lastStateChangeTime d + THRESHOLDS.STATE_CHANGE_DEBOUNCE_MS <= now)%Z)
  /\ (accepted now pose d ->
      getState (processFrame now pose d) = transition /\
      lastStateChangeTime (processFrame now pose d) = now).
Proof.
  unfold getReps, getState.
  assert (Acc : accepted now pose d <->
                currentState d <> transition /\
                (lastStateChangeTime d + THRESHOLDS.STATE_CHANGE_DEBOUNCE_MS
                 <= now)%Z).
  { rewrite accepted_iff, H. split.
    - intros (_ & Hc & Ht). split; [congruence | exact Ht].
    - intros (Hc & Ht). repeat split; [discriminate | congruence | exact Ht]. }
  destruct (processFrame_cases now pose d) as [E|(Hk & Hc & Ht & E)].
  - split; [rewrite E; reflexivity|]. split; [rewrite E; reflexivity|].
    split; [exact Acc|]. intro A. exfalso. apply A, E.
  - split; [rewrite E, H; reflexivity|].
    split; [rewrite E, H; reflexivity|].
    split; [exact Acc|]. intros _. rewrite E, H. split; reflexivity.
Qed.

Lemma transition_frame_keeps_count_and_flag_witness :
  let d := processFrames
             [(1000%Z, TestPoses.downPose); (1500%Z, TestPoses.upPose)]
             createJumpingJackDetector in
  hasReachedUp (processFrame 2000 TestPoses.armsOnlyPose d) = true
  /\ getState (processFrame 2000 TestPoses.armsOnlyPose d) = transition
  /\ getReps (processFrame 2000 TestPoses.armsOnlyPose d) = 0.
Proof.
  intro d.
  destruct (transition_frame_keeps_count_and_flag
              2000 TestPoses.armsOnlyPose d) as (R & F & A & S).
  - vm_compute. reflexivity.
  - split; [rewrite F; vm_compute; reflexivity|].
    split; [|rewrite R; vm_compute; reflexivity].
    apply S, A. split; vm_compute; discriminate.
Defined.

End DetectorMore.

(** ** More on the per-frame classifier *)

Module ClassifierMore.
Import Exercises SpecTerms MoreTerms ClassifierFacts.

Ltac inside_pose :=
  rewrite !getLandmark_inside
    by (unfold LANDMARKS.LEFT_SHOULDER, LANDMARKS.RIGHT_SHOULDER,
          LANDMARKS.LEFT_WRIST, LANDMARKS.RIGHT_WRIST,
          LANDMARKS.LEFT_HIP, LANDMARKS.RIGHT_HIP,
          LANDMARKS.LEFT_ANKLE, LANDMARKS.RIGHT_ANKLE; lia).

Lemma areArmsUp_unavailable (pose : list Landmark) :
  33 <= List.length pose ->
  Exists (fun i => meetsVisibility (landmarkAt pose i) = false) armLandmarks ->
  areArmsUp pose = None.
Proof.
  intros Hlen Hv. apply Exists_four in Hv.
  unfold areArmsUp. inside_pose.
  destruct Hv as [V|[V|[V|V]]]; rewrite V;
    repeat match goal with
           | |- context [if ?b then _ else _] => destruct b
           end; reflexivity.
Qed.

(** The four arm landmarks are all available, or one of them is not. *)
Lemma arms_available_or_not (pose : list Landmark) :
  Forall (fun i => meetsVisibility (landmarkAt pose i) = true) armLandmarks \/
  Exists (fun i => meetsVisibility (landmarkAt pose i) = false) armLandmarks.
Proof.
  destruct (forallb (fun i => meetsVisibility (landmarkAt pose i)) armLandmarks)
    eqn:F.
  - left. rewrite forallb_forall in F. apply Forall_forall. exact F.
  - right. apply Exists_exists.
    assert (E : existsb (fun i => negb (meetsVisibility (landmarkAt pose i)))
                  armLandmarks = true).
    { revert F. generalize armLandmarks. intro l.
      induction l as [|i l IH]; simpl; [discriminate|].
      destruct (meetsVisibility (landmarkAt pose i)); simpl; auto. }
    apply existsb_exists in E. destruct E as (i & Hi & Hv).
    exists i. split; [exact Hi | apply negb_true_iff, Hv].
Qed.

Lemma legs_available_or_not (pose : list Landmark) :
  Forall (fun i => meetsVisibility (landmarkAt pose i) = true) legLandmarks \/
  Exists (fun i => meetsVisibility (landmarkAt pose i) = false) legLandmarks.
Proof.
  destruct (forallb (fun i => meetsVisibility (landmarkAt pose i)) legLandmarks)
    eqn:F.
  - left. rewrite forallb_forall in F. apply Forall_forall. exact F.
  - right. apply Exists_exists.
    assert (E : existsb (fun i => negb (meetsVisibility (landmarkAt pose i)))
                  legLandmarks = true).
    { revert F. generalize legLandmarks. intro l.
      induction l as [|i l IH]; simpl; [discriminate|].
      destruct (meetsVisibility (landmarkAt pose i)); simpl; auto. }
    apply existsb_exists in E. destruct E as (i & Hi & Hv).
    exists i. split; [exact Hi | apply negb_true_iff, Hv].
Qed.

(** A pose that is long enough is Unknown exactly when an arm landmark is
    unavailable. *)
Lemma unknown_when_long (pose : list Landmark) :
  33 <= List.length pose ->
  (detectJumpingJackPosition pose = unknown <->
   Exists (fun i => meetsVisibility (landmarkAt pose i) = false) armLandmarks).
Proof.
  intro L. unfold detectJumpingJackPosition. rewrite (long_enough pose L).
  destruct (arms_available_or_not pose) as [A|A].
  - rewrite (areArmsUp_available pose L A). split.
    + destruct (areFeetApart pose) as [f|];
        destruct (bothWristsAboveShoulders pose); try destruct f;
        simpl; discriminate.
    + intro E. exfalso.
      apply Exists_exists in E. destruct E as (i & Hi & Hv).
      rewrite Forall_forall in A. rewrite (A i Hi) in Hv. discriminate.
  - rewrite (areArmsUp_unavailable pose L A). split; auto.
Qed.

(** X6. The classifier answers Unknown in two cases only: the pose has fewer
    than 33 entries, or one of the four arm landmarks (shoulders, wrists) is
    below the visibility threshold. Hidden hips or ankles never make a frame
    Unknown. *)
Theorem unknown_exactly_when_short_or_arm_hidden (pose : list Landmark) :
  detectJumpingJackPosition pose = unknown <->
  List.length pose < 33 \/
  Exists (fun i => meetsVisibility (landmarkAt pose i) = false) armLandmarks.
Proof.
  destruct (Nat.ltb (List.length pose) 33) eqn:L.
  - apply Nat.ltb_lt in L. split; [auto|]. intros _.
    unfold detectJumpingJackPosition.
    replace (Nat.ltb (List.length pose) 33) with true
      by (symmetry; apply Nat.ltb_lt; exact L).
    reflexivity.
  - apply Nat.ltb_ge in L. rewrite (unknown_when_long pose L).
    split; [auto|]. intros [S|E]; [lia | exact E].
Qed.

(** What [areArmsUp] and [areFeetApart] read of a pose that is long
    enough. *)
Lemma areArmsUp_reading (p q : list Landmark) :
  33 <= List.length p -> 33 <= List.length q ->
  Forall (sameArmReading p q) armLandmarks ->
  areArmsUp p = areArmsUp q.
Proof.
  intros Lp Lq H. apply Forall_four in H.
  destruct H as ((Y1 & V1) & (Y2 & V2) & (Y3 & V3) & (Y4 & V4)).
  unfold areArmsUp. inside_pose. unfold meetsVisibility.
  rewrite V1, V2, V3, V4.
  repeat match goal with
         | |- context [if negb ?b then _ else _] => destruct b; simpl
         end; try reflexivity.
  rewrite Y1, Y2, Y3, Y4. reflexivity.
Qed.

Lemma areFeetApart_reading (p q : list Landmark) :
  33 <= List.length p -> 33 <= List.length q ->
  Forall (sameLegReading p q) legLandmarks ->
  areFeetApart p = areFeetApart q.
Proof.
  intros Lp Lq H. apply Forall_four in H.
  destruct H as ((X1 & V1) & (X2 & V2) & (X3 & V3) & (X4 & V4)).
  unfold areFeetApart. inside_pose. unfold meetsVisibility.
  rewrite V1, V2, V3, V4.
  repeat match goal with
         | |- context [if negb ?b then _ else _] => destruct b; simpl
         end; try reflexivity.
  rewrite X1, X2, X3, X4. reflexivity.
Qed.

(** X7. Of a pose with at least 33 entries the classifier reads eight
    landmarks only, and of those the height and visibility of shoulders and
    wrists and the abscissa and visibility of hips and ankles: two such poses
    that agree on these readings are classified the same, whatever their 25
    other landmarks, their depths, and the remaining coordinate of the
    eight. *)
Theorem classification_reads_eight_landmarks
    (p q : list Landmark)
    (Hp : 33 <= List.length p) (Hq : 33 <= List.length q)
    (Harms : Forall (sameArmReading p q) armLandmarks)
    (Hlegs : Forall (sameLegReading p q) legLandmarks) :
  detectJumpingJackPosition p = detectJumpingJackPosition q.
Proof.
  unfold detectJumpingJackPosition.
  rewrite (long_enough p Hp), (long_enough q Hq),
    (areArmsUp_reading p q Hp Hq Harms),
    (areFeetApart_reading p q Hp Hq Hlegs).
  reflexivity.
Qed.

Lemma classification_reads_eight_landmarks_witness :
  detectJumpingJackPosition TestPoses.upPose
  = detectJumpingJackPosition (flattened 7%float TestPoses.upPose)
  /\ flattened 7%float TestPoses.upPose <> TestPoses.upPose.
Proof.
  split.
  - apply (classification_reads_eight_landmarks
             TestPoses.upPose (flattened 7%float TestPoses.upPose)).
    + vm_compute. lia.
    + vm_compute. lia.
    + repeat (constructor; [split; vm_compute; reflexivity|]). constructor.
    + repeat (constructor; [split; vm_compute; reflexivity|]). constructor.
  - vm_compute. discriminate.
Defined.

End ClassifierMore.

(** ** More on the exercise session *)

Module SessionMore.
Import Exercises SpecTerms MoreTerms DetectorFacts DetectorMore.

(** One frame of a session, for any target: what becomes of the detector
    and of the store's counter, and when an event is emitted. *)
Lemma session_frame (targetReps : nat) (now : Z)
    (pose : option (list Landmark)) (s : WebcamFeed.Session) :
  let d' := detectorAfter now pose s in
  let out := WebcamFeed.processFrame targetReps now pose s in
  (snd out = None /\
   WebcamFeed.detectorRef (fst out) = d' /\
   WebcamFeed.currentReps (fst out)
   = WebcamFeed.currentReps s + (getReps d' - getReps (WebcamFeed.detectorRef s)))
  \/
  (snd out <> None /\
   targetReps <= getReps d' /\
   fst out = WebcamFeed.mkSession createJumpingJackDetector 0).
Proof.
  destruct pose as [p|]; simpl.
  - unfold getReps.
    destruct (processFrame_reps now p (WebcamFeed.detectorRef s)) as [E|E];
      rewrite E.
    + rewrite Nat.ltb_irrefl. left. simpl. repeat split. lia.
    + replace (Nat.ltb _ _) with true by (symmetry; apply Nat.ltb_lt; lia).
      destruct (Nat.leb targetReps (S (reps (WebcamFeed.detectorRef s)))) eqn:T.
      * right. apply Nat.leb_le in T. simpl. repeat split; [discriminate | exact T].
      * left. cbn [fst snd WebcamFeed.detectorRef WebcamFeed.currentReps].
        repeat split. lia.
  - left. repeat split. lia.
Qed.

(** The store's counter follows the detector through any stream. *)
Lemma mirror_frames (targetReps : nat)
    (frames : list (Z * option (list Landmark))) (s0 : WebcamFeed.Session) :
  WebcamFeed.currentReps s0 = getReps (WebcamFeed.detectorRef s0) ->
  WebcamFeed.currentReps (fst (WebcamFeed.processFrames targetReps frames s0))
  = getReps (WebcamFeed.detectorRef
               (fst (WebcamFeed.processFrames targetReps frames s0))).
Proof.
  revert s0. induction frames as [|[now pose] rest IH]; intros s0 H; simpl;
    [exact H|].
  pose proof (session_frame targetReps now pose s0) as F. cbv zeta in F.
  pose proof (processFrame_reps_option now pose s0) as R.
  destruct (WebcamFeed.processFrame targetReps now pose s0) as [s1 ev].
  specialize (IH s1).
  destruct (WebcamFeed.processFrames targetReps rest s1) as [s2 evs].
  simpl in *. apply IH.
  destruct F as [(_ & D & C)|(_ & _ & F)].
  - rewrite D, C. lia.
  - rewrite F. reflexivity.
Qed.

(** X8. The rep counter on screen is the detector's. After any stream of
    frames, for any target, the store's [currentReps] (written by
    [incrementReps] and [resetReps] only) equals the count of the session's
    detector. *)
Theorem store_counter_mirrors_detector
    (targetReps : nat) (frames : list (Z * option (list Landmark))) :
  let s := fst (WebcamFeed.processFrames targetReps frames WebcamFeed.initial) in
  WebcamFeed.currentReps s = getReps (WebcamFeed.detectorRef s).
Proof.
  cbv zeta. apply mirror_frames. unfold WebcamFeed.initial, getReps.
  reflexivity.
Qed.

(** The detector of a session keeps the pace of [paced], resets included. *)
Lemma session_paced (targetReps : nat) (a b : Z)
    (frames : list (Z * option (list Landmark))) (s : WebcamFeed.Session) :
  Forall (fun f => (a <= fst f <= b)%Z) frames ->
  paced a b (WebcamFeed.detectorRef s) ->
  WebcamFeed.emitted (snd (WebcamFeed.processFrames targetReps frames s)) <> [] ->
  (1000 * Z.of_nat targetReps <= Z.max 0 (b - a + 500))%Z.
Proof.
  revert s. induction frames as [|[now pose] rest IH]; intros s HF P E.
  - simpl in E. congruence.
  - inversion_clear HF as [|? ? Hhead Hrest]. simpl in Hhead.
    assert (P' : paced a b (detectorAfter now pose s)).
    { destruct pose as [p|]; simpl; [apply paced_step; [lia | exact P] | exact P]. }
    pose proof (session_frame targetReps now pose s) as F. cbv zeta in F.
    simpl in E.
    destruct (WebcamFeed.processFrame targetReps now pose s) as [s1 ev].
    specialize (IH s1 Hrest).
    destruct (WebcamFeed.processFrames targetReps rest s1) as [s2 evs].
    cbn [fst snd] in *.
    destruct F as [(N & D & _)|(_ & T & F)].
    + subst ev. simpl in E. apply IH; [rewrite D; exact P' | exact E].
    + pose proof (paced_bound a b _ P') as B. unfold getReps in T. lia.
Qed.

(** X9. A set cannot be completed faster than the debounce allows. If every
    frame of a stream is processed at a time between [a] and [b] and the
    session emits a completion event, then [1000 * targetReps <= b - a + 500]:
    with the target of 20, the stream spans 19.5 seconds at least. *)
Theorem completion_takes_a_second_per_rep
    (targetReps : nat) (a b : Z)
    (frames : list (Z * option (list Landmark)))
    (Hspan : Forall (fun f => (a <= fst f <= b)%Z) frames)
    (Hevent : WebcamFeed.emitted
                (snd (WebcamFeed.processFrames targetReps frames
                        WebcamFeed.initial)) <> []) :
  (1000 * Z.of_nat targetReps <= Z.max 0 (b - a + 500))%Z
  /\ (targetReps = 20 -> (19500 <= b - a)%Z).
Proof.
  assert (B : (1000 * Z.of_nat targetReps <= Z.max 0 (b - a + 500))%Z).
  { apply (session_paced targetReps a b frames WebcamFeed.initial Hspan);
      [left; reflexivity | exact Hevent]. }
  split; [exact B|]. intro T. subst targetReps. lia.
Qed.

Lemma completion_takes_a_second_per_rep_witness :
  (1000 * Z.of_nat 20 <= Z.max 0 (21000 - 1000 + 500))%Z.
Proof.
  refine (proj1 (completion_takes_a_second_per_rep 20 1000 21000
            ((1000%Z, Some TestPoses.downPose) :: TestPoses.jumpingJacks 20 1500)
            _ _)).
  - apply Forall_forall. intros f Hf.
    assert (C : forallb (fun f => Z.leb 1000 (fst f) && Z.leb (fst f) 21000)
                  ((1000%Z, Some TestPoses.downPose)
                   :: TestPoses.jumpingJacks 20 1500) = true)
      by (vm_compute; reflexivity).
    rewrite forallb_forall in C. specialize (C f Hf).
    apply andb_prop in C. destruct C as [C1 C2].
    apply Z.leb_le in C1, C2. lia.
  - vm_compute. discriminate.
Defined.

End SessionMore.

(** ** The pose source and the debug overlay *)

Module PipelineMore.
Import Exercises SpecTerms MoreTerms ClassifierFacts ClassifierMore.

Lemma ltb_asym (a b : float) :
  PrimFloat.ltb a b = true -> PrimFloat.ltb b a = false.
Proof.
  rewrite !FloatAxioms.ltb_spec. unfold SFltb.
  rewrite (SFcompare_antisym (Prim2SF a) (Prim2SF b)).
  destruct (SFcompare (Prim2SF a) (Prim2SF b)) as [[| |]|];
    simpl; intro H; (discriminate H || reflexivity).
Qed.



(** X11. The debug information is consistent with itself and with the
    classifier. [armsUp] is known exactly when both per-arm flags are, and
    is then their conjunction; an ankle the overlay reports visible exists
    and is available to the classifier; and for a pose of at least 33
    entries the reported state is a function of [armsUp] and [feetApart]:
    Unknown without [armsUp], the arms alone without [feetApart]. *)
Theorem debug_info_consistent (pose : list Landmark) :
  let info := Debug.getDebugInfo pose in
  Debug.armsUp info
    = match Debug.leftArmUp info, Debug.rightArmUp info with
      | Some l, Some r => Some (l && r)
      | _, _ => None
      end
  /\ (Debug.leftAnkleVisible info = true ->
      exists l, getLandmark pose LANDMARKS.LEFT_ANKLE = Some l)
  /\ (Debug.rightAnkleVisible info = true ->
      exists l, getLandmark pose LANDMARKS.RIGHT_ANKLE = Some l)
  /\ (33 <= List.length pose ->
      detectJumpingJackPosition pose
      = match Debug.armsUp info, Debug.feetApart info with
        | None, _ => unknown
        | Some a, None => if a then up else down
        | Some a, Some f =>
            if a && f then up
            else if negb a && negb f then down else transition
        end).
Proof.
  assert (V : forall i, Debug.rawVisible pose i = true ->
            exists l, getLandmark pose i = Some l).
  { intros i H. unfold Debug.rawVisible in H. unfold getLandmark.
    destruct (nth_error pose i) as [l|].
    - exists l. rewrite (ltb_asym _ _ H). reflexivity.
    - vm_compute in H. discriminate H. }
  cbv zeta. unfold Debug.getDebugInfo. simpl.
  split; [|split; [apply V | split; [apply V|]]].
  - unfold areArmsUp.
    destruct (getLandmark pose LANDMARKS.LEFT_SHOULDER),
      (getLandmark pose LANDMARKS.RIGHT_SHOULDER),
      (getLandmark pose LANDMARKS.LEFT_WRIST),
      (getLandmark pose LANDMARKS.RIGHT_WRIST); reflexivity.
  - intro L. unfold detectJumpingJackPosition.
    rewrite (long_enough pose L). reflexivity.
Qed.

(** A visibility above the overlay's 0.5 is not below the classifier's
    threshold. *)
Lemma above_half_not_below_min (v : float) :
  PrimFloat.ltb 0.5%float v = true ->
  PrimFloat.ltb v THRESHOLDS.MIN_VISIBILITY = false.
Proof.
  unfold THRESHOLDS.MIN_VISIBILITY.
  rewrite !FloatAxioms.ltb_spec. unfold SFltb.
  replace (Prim2SF 0.5%float) with (S754_finite false 4503599627370496 (-53))
    by (vm_compute; reflexivity).
  replace (Prim2SF 0.3%float) with (S754_finite false 5404319552844595 (-54))
    by (vm_compute; reflexivity).
  destruct (Prim2SF v) as [s|s| |s m e]; cbn [SFcompare]; intro H.
  - discriminate H.
  - destruct s; [discriminate H | reflexivity].
  - discriminate H.
  - destruct s; [discriminate H|].
    destruct (e ?= -54)%Z eqn:C1; [| |reflexivity]; exfalso.
    + apply Z.compare_eq in C1. subst e.
      replace (-53 ?= -54)%Z with Gt in H by reflexivity. discriminate H.
    + change (e < -54)%Z in C1.
      destruct (-53 ?= e)%Z eqn:C2; [| |discriminate H].
      * apply Z.compare_eq in C2. lia.
      * change (-53 < e)%Z in C2. lia.
Qed.

Lemma wellVisible_available (landmarks : list Landmark) (idx : nat) :
  Overlay.wellVisible landmarks idx = true ->
  idx < List.length landmarks /\
  meetsVisibility (landmarkAt landmarks idx) = true.
Proof.
  unfold Overlay.wellVisible. intro H.
  destruct (nth_error landmarks idx) as [lm|] eqn:N; [|discriminate].
  assert (L : idx < List.length landmarks)
    by (apply nth_error_Some; congruence).
  split; [exact L|].
  unfold landmarkAt, meetsVisibility.
  rewrite (nth_error_nth' landmarks (mkLandmark 0 0 0 0) L) in N.
  inversion N as [E]. rewrite E.
  rewrite (above_half_not_below_min _ H). reflexivity.
Qed.

(** X17. The overlay is consistent with the classifier. Every key point
    that gets a dot is a landmark that exists and is available to the
    classifier; a segment is drawn only between two key points that both get
    a dot; and when all eight key points of a pose of at least 33 entries get
    their dot, the classifier is in full-body mode: Up, Down or Transition
    by the two predicates, never Unknown and never the upper-body
    fallback. *)
Theorem overlay_consistent_with_classifier (landmarks : list Landmark) :
  (forall idx, In idx (Overlay.dots landmarks) ->
     exists lm, getLandmark landmarks idx = Some lm)
  /\ (forall a b, In (a, b) (Overlay.segments landmarks) ->
        In a (Overlay.dots landmarks) /\ In b (Overlay.dots landmarks))
  /\ (33 <= List.length landmarks ->
      Overlay.dots landmarks = Overlay.keyPoints ->
      areFeetApart landmarks = Some (anklesWiderThanHips landmarks)
      /\ detectJumpingJackPosition landmarks
         = (if bothWristsAboveShoulders landmarks && anklesWiderThanHips landmarks
            then up
            else if negb (bothWristsAboveShoulders landmarks)
                    && negb (anklesWiderThanHips landmarks)
                 then down else transition)).
Proof.
  split; [|split].
  - intros idx H. apply filter_In in H. destruct H as [_ H].
    destruct (wellVisible_available landmarks idx H) as [L M].
    exists (landmarkAt landmarks idx).
    rewrite (getLandmark_inside landmarks idx L), M. reflexivity.
  - intros a b H. apply filter_In in H. destruct H as [C H].
    apply andb_prop in H. destruct H as [Ha Hb]. simpl in Ha, Hb.
    assert (Ka : In a Overlay.keyPoints /\ In b Overlay.keyPoints).
    { unfold Overlay.connections in C. simpl in C.
      repeat (destruct C as [C|C];
              [inversion C; subst; simpl; split; tauto|]).
      contradiction. }
    destruct Ka as [Ka Kb].
    split; apply filter_In; auto.
  - intros Hlen Hall.
    assert (All : forall idx, In idx Overlay.keyPoints ->
              meetsVisibility (landmarkAt landmarks idx) = true).
    { intros idx Hi. rewrite <- Hall in Hi. apply filter_In in Hi.
      destruct Hi as [_ Hi]. apply (wellVisible_available landmarks idx Hi). }
    assert (A : Forall (fun i => meetsVisibility (landmarkAt landmarks i) = true)
                  armLandmarks).
    { apply Forall_forall. intros i Hi. apply All.
      unfold armLandmarks in Hi. simpl in Hi. unfold Overlay.keyPoints. simpl.
      unfold LANDMARKS.LEFT_SHOULDER, LANDMARKS.RIGHT_SHOULDER,
        LANDMARKS.LEFT_WRIST, LANDMARKS.RIGHT_WRIST in Hi. tauto. }
    assert (G : Forall (fun i => meetsVisibility (landmarkAt landmarks i) = true)
                  legLandmarks).
    { apply Forall_forall. intros i Hi. apply All.
      unfold legLandmarks in Hi. simpl in Hi. unfold Overlay.keyPoints. simpl.
      unfold LANDMARKS.LEFT_HIP, LANDMARKS.RIGHT_HIP,
        LANDMARKS.LEFT_ANKLE, LANDMARKS.RIGHT_ANKLE in Hi. tauto. }
    split; [apply areFeetApart_available; assumption|].
    unfold detectJumpingJackPosition.
    rewrite (long_enough landmarks Hlen),
      (areArmsUp_available landmarks Hlen A),
      (areFeetApart_available landmarks Hlen G).
    reflexivity.
Qed.

End PipelineMore.

(** ** The two revisions of the detector *)

Module RevisionsMore.
Import Exercises SpecTerms MoreTerms DetectorFacts.

(** The expectations of the earlier test-suite, replayed on the earlier
    revision (its Up pose has the wrists at 0.1). *)
Example v1_counts_multiple_reps :
  let upPose1 := TestPoses.createPose
                   (TestPoses.wristsAndAnkles 0.1 0.1 0.2 0.8)%float in
  ExercisesV1.detectJumpingJackPosition upPose1 = up
  /\ ExercisesV1.detectJumpingJackPosition TestPoses.downPose = down
  /\ ExercisesV1.getReps
       (ExercisesV1.processFrames
          [TestPoses.downPose; upPose1; TestPoses.downPose;
           upPose1; TestPoses.downPose; upPose1; TestPoses.downPose]
          ExercisesV1.createJumpingJackDetector) = 3
  /\ ExercisesV1.getReps
       (ExercisesV1.processFrames
          [TestPoses.downPose; TestPoses.downPose; TestPoses.downPose]
          ExercisesV1.createJumpingJackDetector) = 0.
Proof. vm_compute. repeat split. Qed.

Lemma agree_step (last now : Z) (pose : list Landmark)
    (d1 : ExercisesV1.Detector) (d2 : Detector) :
  ExercisesV1.detectJumpingJackPosition pose = detectJumpingJackPosition pose ->
  (last + THRESHOLDS.STATE_CHANGE_DEBOUNCE_MS <= now)%Z ->
  (lastStateChangeTime d2 <= last)%Z ->
  (currentState d2 = up -> hasReachedUp d2 = true) ->
  agree d1 d2 ->
  agree (ExercisesV1.processFrame pose d1) (processFrame now pose d2)
  /\ (lastStateChangeTime (processFrame now pose d2) <= now)%Z
  /\ (currentState (processFrame now pose d2) = up ->
      hasReachedUp (processFrame now pose d2) = true).
Proof.
  intros Hc Ht Hl Hup (Ar & As & Af).
  unfold THRESHOLDS.STATE_CHANGE_DEBOUNCE_MS in Ht.
  destruct d1 as [r1 s1 f1]. simpl in Ar, As, Af. subst r1 s1 f1.
  unfold ExercisesV1.processFrame. rewrite Hc. cbn [ExercisesV1.reps
    ExercisesV1.currentState ExercisesV1.hasReachedUp].
  destruct (JumpingJackState_eqb (detectJumpingJackPosition pose)
              (currentState d2)) eqn:Same.
  - apply JumpingJackState_eqb_eq in Same.
    rewrite (processFrame_same now pose d2 Same). rewrite Same.
    split; [|split; [lia | exact Hup]].
    unfold agree.
    destruct (currentState d2) eqn:S2; simpl;
      try (rewrite (Hup eq_refl)); simpl; repeat split;
      destruct (hasReachedUp d2); reflexivity.
  - apply JumpingJackState_eqb_neq in Same.
    destruct (JumpingJackState_eqb (detectJumpingJackPosition pose) unknown)
      eqn:K.
    + apply JumpingJackState_eqb_eq in K.
      rewrite (processFrame_unknown now pose d2 K).
      split; [|split; [lia | exact Hup]]. unfold agree. simpl. auto.
    + apply JumpingJackState_eqb_neq in K.
      rewrite (processFrame_change now pose d2 K Same)
        by (unfold THRESHOLDS.STATE_CHANGE_DEBOUNCE_MS; lia).
      unfold agree.
      destruct (detectJumpingJackPosition pose) eqn:C; simpl;
        try congruence;
        destruct (hasReachedUp d2) eqn:F2; simpl;
        destruct (currentState d2) eqn:S2; simpl;
        repeat split; try reflexivity; try lia; try congruence.
Qed.

Lemma agree_frames (last : Z) (frames : list (Z * list Landmark))
    (d1 : ExercisesV1.Detector) (d2 : Detector) :
  Forall (fun f => ExercisesV1.detectJumpingJackPosition (snd f)
                   = detectJumpingJackPosition (snd f)) frames ->
  slow last frames ->
  (lastStateChangeTime d2 <= last)%Z ->
  (currentState d2 = up -> hasReachedUp d2 = true) ->
  agree d1 d2 ->
  agree (ExercisesV1.processFrames (map snd frames) d1)
        (processFrames frames d2).
Proof.
  revert last d1 d2.
  induction frames as [|[now pose] rest IH]; intros last d1 d2 HF Hs Hl Hup A.
  - exact A.
  - inversion_clear HF as [|? ? Hhead Hrest]. simpl in Hhead.
    destruct Hs as [Ht Hs]. simpl.
    destruct (agree_step last now pose d1 d2 Hhead Ht Hl Hup A)
      as (A' & Hl' & Hup').
    apply (IH now); assumption.
Qed.

(** X12. On a slow stream the debounce changes nothing. If the first frame
    comes 500 ms after time 0 at least and every frame 500 ms after the one
    before, and if both revisions of the classifier give each frame the same
    state, then the debounced detector and the earlier one, fed the same
    poses from their fresh states, end with the same rep count, the same
    reported state and the same reached-up flag. *)
Theorem debounce_transparent_on_slow_streams
    (frames : list (Z * list Landmark))
    (Hsame : Forall (fun f => ExercisesV1.detectJumpingJackPosition (snd f)
                              = detectJumpingJackPosition (snd f)) frames)
    (Hslow : slow 0 frames) :
  let d1 := ExercisesV1.processFrames (map snd frames)
              ExercisesV1.createJumpingJackDetector in
  let d2 := processFrames frames createJumpingJackDetector in
  ExercisesV1.getReps d1 = getReps d2
  /\ ExercisesV1.getState d1 = getState d2
  /\ ExercisesV1.hasReachedUp d1 = hasReachedUp d2.
Proof.
  apply (agree_frames 0 frames); try assumption.
  - simpl. lia.
  - simpl. discriminate.
  - repeat split.
Qed.

Lemma debounce_transparent_on_slow_streams_witness :
  let frames := [(1000%Z, TestPoses.downPose); (1500%Z, TestPoses.upPose);
                 (2000%Z, TestPoses.downPose)] in
  ExercisesV1.getReps
    (ExercisesV1.processFrames (map snd frames)
       ExercisesV1.createJumpingJackDetector)
  = getReps (processFrames frames createJumpingJackDetector).
Proof.
  intro frames.
  refine (proj1 (debounce_transparent_on_slow_streams frames _ _)).
  - repeat constructor; vm_compute; reflexivity.
  - simpl. unfold THRESHOLDS.STATE_CHANGE_DEBOUNCE_MS. lia.
Defined.

(** X13. The earlier revision has no pace limit: it counts a rep for every
    Up pose followed by a Down pose, at once and from any state, so [n]
    alternations count [n] reps however fast they come (the debounced
    detector counts one per second at most). *)
Theorem v1_counts_every_alternation
    (n : nat) (pU pD : list Landmark) (d : ExercisesV1.Detector)
    (HU : ExercisesV1.detectJumpingJackPosition pU = up)
    (HD : ExercisesV1.detectJumpingJackPosition pD = down) :
  ExercisesV1.getReps (ExercisesV1.processFrames (cycles n pU pD) d)
  = ExercisesV1.getReps d + n.
Proof.
  unfold ExercisesV1.getReps. revert d.
  induction n as [|k IH]; intro d; simpl; [lia|].
  rewrite IH. unfold ExercisesV1.processFrame. rewrite HU, HD. simpl. lia.
Qed.

Lemma v1_counts_every_alternation_witness :
  ExercisesV1.getReps
    (ExercisesV1.processFrames
       (cycles 5 TestPoses.upPose TestPoses.downPose)
       ExercisesV1.createJumpingJackDetector) = 0 + 5.
Proof.
  apply (v1_counts_every_alternation 5 TestPoses.upPose TestPoses.downPose
           ExercisesV1.createJumpingJackDetector).
  - vm_compute. reflexivity.
  - vm_compute. reflexivity.
Defined.

End RevisionsMore.

(** ** The application: video frames and socket events *)

Module AppMore.
Import String.
Import Exercises SpecTerms MoreTerms AppTerms SessionFacts.
Local Open Scope string_scope.

(** A video frame does to detector and counter what the session callback
    does, whatever the socket; and it reports the event of the callback, if
    the socket is open. *)
Lemma videoFrame_session (wsRef : option nat) (now : Z)
    (pose : option (list Landmark)) (a : App.State) :
  let out := App.videoFrame wsRef now pose a in
  let ref := WebcamFeed.processFrame App.TARGET_REPS now pose (sessionOf a) in
  sessionOf (fst out) = fst ref
  /\ shownBalance (App.store (fst out)) = shownBalance (App.store a)
  /\ Store.isConnected (App.store (fst out)) = Store.isConnected (App.store a)
  /\ Store.lastMessage (App.store (fst out)) = Store.lastMessage (App.store a)
  /\ snd out
     = match snd ref with
       | Some e =>
           if socketOpen (App.VideoFrame wsRef now pose)
           then [WebSocketClient.mkExerciseComplete "exercise_complete"
                   (WebcamFeed.exerciseKind e) (WebcamFeed.repsCompleted e)]
           else []
       | None => []
       end.
Proof.
  destruct a as [d st].
  unfold App.videoFrame, WebcamFeed.processFrame, sessionOf.
  cbn [App.detector App.store WebcamFeed.detectorRef WebcamFeed.currentReps].
  generalize App.TARGET_REPS. intro t.
  destruct pose as [p|]; [|cbn; repeat split].
  destruct (Nat.ltb (getReps d) (getReps (processFrame now p d)));
    [|cbn; repeat split].
  destruct (Nat.leb t (getReps (processFrame now p d))).
  - cbn [fst snd App.detector App.store Store.resetReps Store.incrementReps
         Store.currentReps Store.isConnected Store.lastMessage shownBalance
         Store.requestsAvailable Store.requestsEarned Store.requestsSpent
         WebcamFeed.exerciseKind WebcamFeed.repsCompleted].
    repeat split. destruct wsRef as [rs|]; cbn [socketOpen App.handleExerciseComplete];
      [|reflexivity].
    unfold WebSocketClient.sendExerciseComplete.
    destruct (Nat.eqb rs WebSocketClient.OPEN); reflexivity.
  - cbn [fst snd App.detector App.store Store.resetReps Store.incrementReps
         Store.currentReps Store.isConnected Store.lastMessage shownBalance
         Store.requestsAvailable Store.requestsEarned Store.requestsSpent].
    repeat split. rewrite Nat.add_1_r. reflexivity.
Qed.

Lemma socketEvent_store (call : option WebSocketClient.HandlerCall)
    (a : App.State) :
  sessionOf (App.socketEvent call a) = sessionOf a.
Proof.
  destruct call as [[| | b | r | m]|]; reflexivity.
Qed.

Lemma socketEvent_sent (a : App.State) (e : App.Event) :
  (forall w n p, e <> App.VideoFrame w n p) ->
  sessionOf (fst (App.step a e)) = sessionOf a /\ snd (App.step a e) = [].
Proof.
  intro H. destruct e as [w n p| | | |data]; cbn [App.step fst snd];
    try (split; [apply socketEvent_store | reflexivity]).
  exfalso. apply (H w n p). reflexivity.
Qed.

(** Detector, counter and messages of a run, from any state whose detector
    is below the target. *)
Lemma run_session (events : list App.Event) (a : App.State) :
  getReps (App.detector a) < App.TARGET_REPS ->
  let out := App.run events a in
  let ref := WebcamFeed.processFrames App.TARGET_REPS (videoFrames events)
               (sessionOf a) in
  sessionOf (fst out) = fst ref
  /\ Forall (fun m => m = twentyJumpingJacksMessage) (snd out)
  /\ List.length (snd out) <= List.length (WebcamFeed.emitted (snd ref))
  /\ (forallb socketOpen events = true ->
      List.length (snd out) = List.length (WebcamFeed.emitted (snd ref)))
  /\ (forallb socketNotOpen events = true -> snd out = []).
Proof.
  revert a. induction events as [|e rest IH]; intros a Inv.
  - simpl. repeat split; auto.
  - destruct e as [w now pose| | | |data].
    + (* a video frame *)
      pose proof (videoFrame_session w now pose a) as V. cbv zeta in V.
      destruct V as (Vs & _ & _ & _ & Vm).
      pose proof (session_step App.TARGET_REPS now pose (sessionOf a) Inv) as S.
      cbn [App.run App.step videoFrames WebcamFeed.processFrames].
      destruct (App.videoFrame w now pose a) as [a1 sent1].
      destruct (WebcamFeed.processFrame App.TARGET_REPS now pose (sessionOf a))
        as [s1 ev].
      cbn [fst snd] in Vs, Vm, S. subst s1.
      assert (Inv1 : getReps (App.detector a1) < App.TARGET_REPS).
      { destruct S as [(L & D & _)|(_ & _ & F & _)].
        - change (App.detector a1) with (WebcamFeed.detectorRef (sessionOf a1)).
          rewrite D. exact L.
        - change (App.detector a1) with (WebcamFeed.detectorRef (sessionOf a1)).
          rewrite F. unfold App.TARGET_REPS. simpl. lia. }
      specialize (IH a1 Inv1). cbv zeta in IH.
      destruct (App.run rest a1) as [a2 sent2].
      destruct (WebcamFeed.processFrames App.TARGET_REPS (videoFrames rest)
                  (sessionOf a1)) as [s2 evs].
      cbn [fst snd] in *.
      destruct IH as (I1 & I2 & I3 & I4 & I5).
      split; [exact I1|].
      destruct S as [(_ & _ & N)|(_ & _ & _ & E)]; subst ev;
        cbn [WebcamFeed.exerciseKind WebcamFeed.repsCompleted] in Vm;
        subst sent1.
      * cbn [app WebcamFeed.emitted].
        split; [exact I2|]. split; [exact I3|]. split.
        -- intro H. cbn [forallb] in H. apply andb_prop in H. tauto.
        -- intro H. cbn [forallb] in H. apply andb_prop in H. tauto.
      * cbn [WebcamFeed.emitted].
        destruct (socketOpen (App.VideoFrame w now pose)) eqn:O.
        -- cbn [app List.length]. split; [|split; [|split]].
           ++ constructor; [reflexivity | exact I2].
           ++ lia.
           ++ intro H. cbn [forallb] in H. apply andb_prop in H.
              destruct H as [_ H]. rewrite (I4 H). reflexivity.
           ++ intro H. cbn [forallb] in H. apply andb_prop in H.
              destruct H as [H _]. exfalso.
              destruct w as [rs|]; cbn [socketOpen socketNotOpen] in O, H;
                [|discriminate].
              rewrite O in H. discriminate.
        -- cbn [app List.length]. split; [exact I2|]. split; [lia|]. split.
           ++ intro H. cbn [forallb] in H. rewrite O in H. discriminate.
           ++ intro H. cbn [forallb] in H. apply andb_prop in H. tauto.
    + destruct (socketEvent_sent a App.SocketOpen) as [Ss Sm]; [discriminate|].
      cbn [App.run videoFrames]. destruct (App.step a App.SocketOpen) as [a1 sent1].
      cbn [fst snd] in Ss, Sm. subst sent1.
      assert (Inv1 : getReps (App.detector a1) < App.TARGET_REPS).
      { change (App.detector a1) with (WebcamFeed.detectorRef (sessionOf a1)).
        rewrite Ss. exact Inv. }
      specialize (IH a1 Inv1). cbv zeta in IH. rewrite Ss in IH.
      destruct (App.run rest a1) as [a2 sent2]. exact IH.
    + destruct (socketEvent_sent a App.SocketClose) as [Ss Sm]; [discriminate|].
      cbn [App.run videoFrames]. destruct (App.step a App.SocketClose) as [a1 sent1].
      cbn [fst snd] in Ss, Sm. subst sent1.
      assert (Inv1 : getReps (App.detector a1) < App.TARGET_REPS).
      { change (App.detector a1) with (WebcamFeed.detectorRef (sessionOf a1)).
        rewrite Ss. exact Inv. }
      specialize (IH a1 Inv1). cbv zeta in IH. rewrite Ss in IH.
      destruct (App.run rest a1) as [a2 sent2]. exact IH.
    + destruct (socketEvent_sent a App.SocketError) as [Ss Sm]; [discriminate|].
      cbn [App.run videoFrames]. destruct (App.step a App.SocketError) as [a1 sent1].
      cbn [fst snd] in Ss, Sm. subst sent1.
      assert (Inv1 : getReps (App.detector a1) < App.TARGET_REPS).
      { change (App.detector a1) with (WebcamFeed.detectorRef (sessionOf a1)).
        rewrite Ss. exact Inv. }
      specialize (IH a1 Inv1). cbv zeta in IH. rewrite Ss in IH.
      destruct (App.run rest a1) as [a2 sent2]. exact IH.
    + destruct (socketEvent_sent a (App.SocketMessage data)) as [Ss Sm];
        [discriminate|].
      cbn [App.run videoFrames].
      destruct (App.step a (App.SocketMessage data)) as [a1 sent1].
      cbn [fst snd] in Ss, Sm. subst sent1.
      assert (Inv1 : getReps (App.detector a1) < App.TARGET_REPS).
      { change (App.detector a1) with (WebcamFeed.detectorRef (sessionOf a1)).
        rewrite Ss. exact Inv. }
      specialize (IH a1 Inv1). cbv zeta in IH. rewrite Ss in IH.
      destruct (App.run rest a1) as [a2 sent2]. exact IH.
Qed.

(** The expectations of [websocket.test.ts] and of the store's test-suite,
    replayed. *)
Example client_dispatches_messages :
  WebSocketClient.onmessage
    (WebSocketClient.mkServerMessage "balance_update"
       (Some 5%Z) (Some 10%Z) (Some 5%Z) None None None)
  = Some (WebSocketClient.OnBalanceUpdate (WebSocketClient.mkBalance 5 10 5))
  /\ WebSocketClient.onmessage
       (WebSocketClient.mkServerMessage "request_awarded"
          None None None (Some "jumping_jacks") (Some 1%Z)
          (Some "Nice! +1 request"))
     = Some (WebSocketClient.OnRequestAwarded
               (WebSocketClient.mkRequestAwarded "jumping_jacks" 1
                  "Nice! +1 request"))
  /\ WebSocketClient.onmessage
       (WebSocketClient.mkServerMessage "error"
          None None None None None (Some "Something went wrong"))
     = Some (WebSocketClient.OnError "Something went wrong")
  /\ WebSocketClient.sendExerciseComplete WebSocketClient.OPEN
       "jumping_jacks" 20
     = [WebSocketClient.mkExerciseComplete "exercise_complete"
          "jumping_jacks" 20].
Proof. vm_compute. repeat split. Qed.

Example store_actions :
  Store.currentReps (Store.incrementReps Store.initial) = 1
  /\ Store.currentReps
       (Store.resetReps (Store.incrementReps (Store.incrementReps Store.initial)))
     = 0
  /\ Store.isConnected (Store.setConnected true Store.initial) = true
  /\ Store.lastMessage (Store.setLastMessage "Test message" Store.initial)
     = Some "Test message"
  /\ Store.lastMessage
       (Store.clearMessage (Store.setLastMessage "Test" Store.initial)) = None
  /\ shownBalance
       (Store.setBalance (WebSocketClient.mkBalance 5 10 5) Store.initial)
     = WebSocketClient.mkBalance 5 10 5.
Proof. vm_compute. repeat split. Qed.

(** Twenty jumping jacks while the socket is closed (readyState 3), and
    while it is open: the set is reported in the second case only; the
    counter is back at zero in both. *)
Example twenty_jumping_jacks_and_the_socket :
  let frames w :=
    map (fun f => App.VideoFrame w (fst f) (snd f))
      ((1000%Z, Some TestPoses.downPose) :: TestPoses.jumpingJacks 20 1500) in
  snd (App.run (frames (Some 3)) App.initial) = []
  /\ Store.currentReps (App.store (fst (App.run (frames (Some 3)) App.initial)))
     = 0
  /\ snd (App.run (frames (Some 1)) App.initial) = [twentyJumpingJacksMessage]
  /\ snd (App.run (frames None) App.initial) = [].
Proof. vm_compute. repeat split. Qed.

(** X14. Counting depends on the video frames only. After any run of video
    frames and socket events, the detector and the on-screen counter are
    those of the session callback run on the video frames alone: no message
    of the server, no opening, closing or error of the socket, and no state
    of the socket at the time of a frame changes them. The counter equals
    the detector's count and stays below the target, so that between events
    [RepCounter] never shows 'Set complete!' but always how many reps are
    left, between 1 and 20. *)
Theorem counting_depends_on_video_frames_only (events : list App.Event) :
  let a := fst (App.run events App.initial) in
  let s := fst (WebcamFeed.processFrames App.TARGET_REPS (videoFrames events)
                  WebcamFeed.initial) in
  App.detector a = WebcamFeed.detectorRef s
  /\ Store.currentReps (App.store a) = WebcamFeed.currentReps s
  /\ Store.currentReps (App.store a) = getReps (App.detector a)
  /\ Store.currentReps (App.store a) < App.TARGET_REPS
  /\ exists remaining,
       RepCounter.caption App.TARGET_REPS (Store.currentReps (App.store a))
       = RepCounter.MoreToEarn remaining
       /\ 1 <= remaining <= 20.
Proof.
  intros a s.
  assert (Inv0 : getReps (App.detector App.initial) < App.TARGET_REPS)
    by (unfold App.TARGET_REPS; simpl; lia).
  destruct (run_session events App.initial Inv0) as (R & _).
  change (sessionOf App.initial) with WebcamFeed.initial in R.
  fold a in R. fold s in R.
  assert (Below : getReps (WebcamFeed.detectorRef s) < App.TARGET_REPS).
  { apply below_target. unfold App.TARGET_REPS. simpl. lia. }
  assert (Mirror : WebcamFeed.currentReps s = getReps (WebcamFeed.detectorRef s)).
  { apply SessionMore.mirror_frames. reflexivity. }
  assert (D : App.detector a = WebcamFeed.detectorRef s)
    by (rewrite <- R; reflexivity).
  assert (C : Store.currentReps (App.store a) = WebcamFeed.currentReps s)
    by (rewrite <- R; reflexivity).
  split; [exact D|]. split; [exact C|].
  split; [rewrite C, D; exact Mirror|].
  assert (Lt : Store.currentReps (App.store a) < App.TARGET_REPS)
    by (rewrite C, Mirror; exact Below).
  split; [exact Lt|].
  exists (App.TARGET_REPS - Store.currentReps (App.store a)).
  unfold RepCounter.caption.
  replace (Nat.leb App.TARGET_REPS (Store.currentReps (App.store a)))
    with false by (symmetry; apply Nat.leb_gt; exact Lt).
  split; [reflexivity|]. unfold App.TARGET_REPS in *. lia.
Qed.


(** Balance and connection flag of a run, from any state. *)
Lemma run_store (events : list App.Event) (a : App.State) :
  shownBalance (App.store (fst (App.run events a)))
  = balanceAfter events (shownBalance (App.store a))
  /\ Store.isConnected (App.store (fst (App.run events a)))
     = connectedAfter events (Store.isConnected (App.store a)).
Proof.
  unfold balanceAfter, connectedAfter. revert a.
  induction events as [|e rest IH]; intro a; [split; reflexivity|].
  cbn [App.run fold_left].
  assert (S : shownBalance (App.store (fst (App.step a e)))
              = match e with
                | App.SocketMessage data =>
                    if String.eqb (WebSocketClient.type data) "balance_update"
                    then WebSocketClient.mkBalance
                           (WebSocketClient.orElse
                              (WebSocketClient.requests_available data) 0%Z)
                           (WebSocketClient.orElse
                              (WebSocketClient.requests_earned data) 0%Z)
                           (WebSocketClient.orElse
                              (WebSocketClient.requests_spent data) 0%Z)
                    else shownBalance (App.store a)
                | _ => shownBalance (App.store a)
                end
              /\ Store.isConnected (App.store (fst (App.step a e)))
                 = match e with
                   | App.SocketOpen => true
                   | App.SocketClose => false
                   | _ => Store.isConnected (App.store a)
                   end).
  { destruct e as [w now pose| | | |data]; cbn [App.step fst].
    - pose proof (videoFrame_session w now pose a) as V. cbv zeta in V.
      destruct V as (_ & B & C & _). split; assumption.
    - split; reflexivity.
    - split; reflexivity.
    - split; reflexivity.
    - unfold WebSocketClient.onmessage.
      destruct (String.eqb (WebSocketClient.type data) "balance_update");
        [split; reflexivity|].
      destruct (String.eqb (WebSocketClient.type data) "request_awarded");
        [split; reflexivity|].
      destruct (String.eqb (WebSocketClient.type data) "error");
        split; reflexivity. }
  destruct (App.step a e) as [a1 sent1]. cbn [fst] in S.
  specialize (IH a1). destruct (App.run rest a1) as [a2 sent2].
  cbn [fst] in *. destruct S as [Sb Sc]. rewrite <- Sb, <- Sc. exact IH.
Qed.

(** X16. The store shows what the server said last. After any run, the
    three counts of the balance are those of the last [balance_update]
    message received, a count missing from it being 0, and 0, 0, 0 before
    any; no other message and no video frame changes them. The connection
    flag is whether the last opening or closing of the socket was an
    opening. *)
Theorem store_shows_last_balance_and_connection (events : list App.Event) :
  let st := App.store (fst (App.run events App.initial)) in
  shownBalance st = balanceAfter events (WebSocketClient.mkBalance 0 0 0)
  /\ Store.isConnected st = connectedAfter events false.
Proof.
  intro st. subst st.
  destruct (run_store events App.initial) as [B C].
  split; [exact B | exact C].
Qed.

End AppMore.
